(** * Request signing for the Inworld JWT sample application

    A shallow embedding of [src/index.ts]: the UTC timestamp
    ([getDateTime]), the chained HMAC-SHA256 signature
    ([getSignatureKey]), the authorization header ([getAuthorization],
    [generateAuthHeader]) and the request assembled by [getJwtToken].

    Conventions of the embedding.
    - A JavaScript string is a [string] holding the UTF-8 encoding of a
      well-formed text: these are the bytes [crypto-js] hashes.  Strings
      as lists of UTF-16 code units, where a lone surrogate makes
      [crypto-js] throw, are in [Utf16] and [Throwing].  Every
      string operation of the source ([split], [replace], [substring],
      [slice]) is applied with ASCII patterns or to ASCII text, where
      byte positions and UTF-16 positions coincide.
    - A byte and a 32-bit word are integers of [Z], with the wrap-around
      written out.
    - The clock, the random source and the process environment are read
      from an explicit [World]. *)

From Stdlib Require Import ZArith List String Ascii Lia Bool.
From stdpp Require Import gmap strings list fin_maps.
Import ListNotations.

Local Open Scope Z_scope.

(** ** Bytes and text *)

Definition byte_of_ascii (c : ascii) : Z := Z.of_N (N_of_ascii c).

(** The bytes [Utf8.parse] of [crypto-js] gives for a text.  The parser
    itself, which throws on a JavaScript string that is not well
    formed, is [Utf16.parse] below. *)
Definition bytes_of_string (s : string) : list Z :=
  map byte_of_ascii (list_ascii_of_string s).

(** ** SHA-256 (FIPS 180-4), as [crypto-js] computes it *)

Module SHA256.

Definition wrap32 (x : Z) : Z := x mod 2 ^ 32.
Definition add32 (x y : Z) : Z := wrap32 (x + y).
Definition not32 (x : Z) : Z := 2 ^ 32 - 1 - x.
Definition rotr (n x : Z) : Z :=
  Z.lor (Z.shiftr x n) (wrap32 (Z.shiftl x (32 - n))).

Definition Ch (x y z : Z) : Z := Z.lxor (Z.land x y) (Z.land (not32 x) z).
Definition Maj (x y z : Z) : Z :=
  Z.lxor (Z.lxor (Z.land x y) (Z.land x z)) (Z.land y z).
Definition Sigma0 (x : Z) : Z := Z.lxor (Z.lxor (rotr 2 x) (rotr 13 x)) (rotr 22 x).
Definition Sigma1 (x : Z) : Z := Z.lxor (Z.lxor (rotr 6 x) (rotr 11 x)) (rotr 25 x).
Definition gamma0 (x : Z) : Z := Z.lxor (Z.lxor (rotr 7 x) (rotr 18 x)) (Z.shiftr x 3).
Definition gamma1 (x : Z) : Z := Z.lxor (Z.lxor (rotr 17 x) (rotr 19 x)) (Z.shiftr x 10).

(** Big-endian packing of bytes into 32-bit words. *)
Fixpoint words_of_bytes (bs : list Z) : list Z :=
  match bs with
  | b0 :: b1 :: b2 :: b3 :: rest =>
      (b0 * 2 ^ 24 + b1 * 2 ^ 16 + b2 * 2 ^ 8 + b3) :: words_of_bytes rest
  | _ => []
  end.

(** The words a row of hexadecimal digits spells, eight digits each. *)
Definition nibble (c : ascii) : Z :=
  let n := byte_of_ascii c in if n <? 58 then n - 48 else n - 87.

Fixpoint bytes_of_hex (s : string) : list Z :=
  match s with
  | String a (String b rest) => (16 * nibble a + nibble b) :: bytes_of_hex rest
  | _ => []
  end.

Definition words_of_hex (s : string) : list Z := words_of_bytes (bytes_of_hex s).

(** The round constants: the fractional parts of the cube roots of the
    first 64 primes. *)
Definition K : list Z :=
  concat (map words_of_hex
    [ "428a2f9871374491b5c0fbcfe9b5dba53956c25b59f111f1923f82a4ab1c5ed5";
      "d807aa9812835b01243185be550c7dc372be5d7480deb1fe9bdc06a7c19bf174";
      "e49b69c1efbe47860fc19dc6240ca1cc2de92c6f4a7484aa5cb0a9dc76f988da";
      "983e5152a831c66db00327c8bf597fc7c6e00bf3d5a7914706ca635114292967";
      "27b70a852e1b21384d2c6dfc53380d13650a7354766a0abb81c2c92e92722c85";
      "a2bfe8a1a81a664bc24b8b70c76c51a3d192e819d6990624f40e3585106aa070";
      "19a4c1161e376c082748774c34b0bcb5391c0cb34ed8aa4a5b9cca4f682e6ff3";
      "748f82ee78a5636f84c878148cc7020890befffaa4506cebbef9a3f7c67178f2" ]).

(** The eight chaining words [H[0..7]]. *)
Record hash := Hash {
  h0 : Z; h1 : Z; h2 : Z; h3 : Z; h4 : Z; h5 : Z; h6 : Z; h7 : Z
}.

Definition hash_of_words (ws : list Z) : hash :=
  Hash (nth 0%nat ws 0) (nth 1%nat ws 0) (nth 2%nat ws 0) (nth 3%nat ws 0)
       (nth 4%nat ws 0) (nth 5%nat ws 0) (nth 6%nat ws 0) (nth 7%nat ws 0).

(** The initial value: the fractional parts of the square roots of the
    first 8 primes. *)
Definition init : hash :=
  hash_of_words (words_of_hex "6a09e667bb67ae853c6ef372a54ff53a510e527f9b05688c1f83d9ab5be0cd19").

(** The message schedule, newest word first: [W[i-2]] is at position 1,
    [W[i-7]] at 6, [W[i-15]] at 14 and [W[i-16]] at 15. *)
Fixpoint extend (n : nat) (rw : list Z) : list Z :=
  match n with
  | O => rw
  | S n' =>
      let wi := add32 (add32 (add32 (gamma0 (nth 14%nat rw 0)) (nth 6%nat rw 0))
                             (gamma1 (nth 1%nat rw 0)))
                      (nth 15%nat rw 0) in
      extend n' (wi :: rw)
  end.

Definition schedule (M : list Z) : list Z := rev (extend 48 (rev M)).

(** One round of the compression loop, on the working variables. *)
Definition round (v : hash) (kw : Z * Z) : hash :=
  let '(Hash a b c d e f g h) := v in
  let t1 := add32 (add32 (add32 (add32 h (Sigma1 e)) (Ch e f g)) (fst kw)) (snd kw) in
  let t2 := add32 (Sigma0 a) (Maj a b c) in
  Hash (add32 t1 t2) a b c (add32 d t1) e f g.

(** [_doProcessBlock] on the sixteen big-endian words of a block. *)
Definition processBlock (H : hash) (M : list Z) : hash :=
  let v := fold_left round (combine K (schedule M)) H in
  Hash (add32 (h0 H) (h0 v)) (add32 (h1 H) (h1 v))
       (add32 (h2 H) (h2 v)) (add32 (h3 H) (h3 v))
       (add32 (h4 H) (h4 v)) (add32 (h5 H) (h5 v))
       (add32 (h6 H) (h6 v)) (add32 (h7 H) (h7 v)).

Definition bytes_of_word (w : Z) : list Z :=
  [ (w / 2 ^ 24) mod 256; (w / 2 ^ 16) mod 256; (w / 2 ^ 8) mod 256; w mod 256 ].

(** The padding of [_doFinalize]: a [0x80] byte, zero bytes up to 56
    modulo 64, and the bit length on 64 bits. *)
Definition pad (msg : list Z) : list Z :=
  let len := Z.of_nat (length msg) in
  let bits := 8 * len in
  msg ++ [0x80] ++ repeat 0 (Z.to_nat ((55 - len) mod 64))
      ++ bytes_of_word (bits / 2 ^ 32) ++ bytes_of_word bits.

(** The 64-byte blocks of a byte sequence; [length bs] is fuel enough. *)
Fixpoint blocks (fuel : nat) (bs : list Z) : list (list Z) :=
  match fuel, bs with
  | O, _ | _, [] => []
  | S fuel', _ => firstn 64 bs :: blocks fuel' (skipn 64 bs)
  end.

Definition digest (H : hash) : list Z :=
  bytes_of_word (h0 H) ++ bytes_of_word (h1 H) ++ bytes_of_word (h2 H)
    ++ bytes_of_word (h3 H) ++ bytes_of_word (h4 H) ++ bytes_of_word (h5 H)
    ++ bytes_of_word (h6 H) ++ bytes_of_word (h7 H).

Definition sha256 (msg : list Z) : list Z :=
  let padded := pad msg in
  digest (fold_left (fun H blk => processBlock H (words_of_bytes blk))
                    (blocks (length padded) padded) init).

End SHA256.

(** ** HMAC and the hexadecimal encoder of [crypto-js] *)

(** A [WordArray] is held as its significant bytes. *)
Definition WordArray := list Z.

(** The source's [string | CryptoJS.lib.WordArray]. *)
Inductive StringOrWords :=
| Str (s : string)
| Words (w : WordArray).

Definition blockSizeBytes : nat := 64.

(** [HMAC.init]: a string key is parsed as UTF-8; a key longer than a
    block is hashed first; the key is then zero-padded to a block. *)
Definition hmacKey (key : StringOrWords) : list Z :=
  let k := match key with
           | Str s => bytes_of_string s
           | Words w => w
           end in
  let k := if (blockSizeBytes <? length k)%nat then SHA256.sha256 k else k in
  k ++ repeat 0 (blockSizeBytes - length k)%nat.

(** [HmacSHA256(message, key)]: the message comes first. *)
Definition HmacSHA256 (message : string) (key : StringOrWords) : WordArray :=
  let k := hmacKey key in
  let iKey := map (Z.lxor 0x36) k in
  let oKey := map (Z.lxor 0x5c) k in
  SHA256.sha256 (oKey ++ SHA256.sha256 (iKey ++ bytes_of_string message)).

(** [(n).toString(16)] of one nibble. *)
Definition hexDigit (n : Z) : ascii :=
  ascii_of_N (Z.to_N (if n mod 16 <? 10 then 48 + n mod 16 else 87 + n mod 16)).

(** [WordArray.toString()], the [Hex] encoder: two digits for each byte. *)
Fixpoint toString (w : WordArray) : string :=
  match w with
  | [] => EmptyString
  | b :: rest => String (hexDigit (b / 16)) (String (hexDigit b) (toString rest))
  end.


(** [Buffer.toString('hex')] of Node produces the same lowercase digits. *)
Definition bufferToHex (b : list Z) : string := toString b.

(** ** The string methods the source calls *)

Module JS.

(** [s.substring(start, end)]: both indices are clamped to the length
    and swapped when [start] is the larger. *)
Definition substring (s : string) (b e : nat) : string :=
  let len := String.length s in
  let b' := Nat.min b len in
  let e' := Nat.min e len in
  String.substring (Nat.min b' e') (Nat.max b' e' - Nat.min b' e') s.

(** [s.slice(start, end)] for non-negative indices: clamped, and empty
    when [start] is not below [end]. *)
Definition slice (s : string) (b e : nat) : string :=
  let len := String.length s in
  let b' := Nat.min b len in
  let e' := Nat.min e len in
  String.substring b' (e' - b') s.

(** What remains of [s] after the prefix [p], when [p] is a prefix. *)
Fixpoint stripPrefix (p s : string) : option string :=
  match p, s with
  | EmptyString, _ => Some s
  | String a p', String b s' => if Ascii.eqb a b then stripPrefix p' s' else None
  | String _ _, EmptyString => None
  end.

(** [s.replace(pattern, replacement)] with a string pattern: only the
    leftmost occurrence is replaced.  (A replacement without [$] is
    inserted as it is.) *)
Fixpoint replace (s pattern replacement : string) : string :=
  match stripPrefix pattern s with
  | Some rest => replacement +:+ rest
  | None =>
      match s with
      | EmptyString => EmptyString
      | String c s' => String c (replace s' pattern replacement)
      end
  end.

(** [s.replace(/c/g, replacement)] for a one-character pattern [c]:
    every occurrence is replaced. *)
Fixpoint replaceAll (s : string) (c : ascii) (replacement : string) : string :=
  match s with
  | EmptyString => EmptyString
  | String a s' =>
      if Ascii.eqb a c then replacement +:+ replaceAll s' c replacement
      else String a (replaceAll s' c replacement)
  end.

(** [s.split(c)] for a one-character separator. *)
Fixpoint split (s : string) (c : ascii) : list string :=
  match s with
  | EmptyString => [EmptyString]
  | String a s' =>
      if Ascii.eqb a c then EmptyString :: split s' c
      else match split s' c with
           | piece :: more => String a piece :: more
           | [] => [String a EmptyString]
           end
  end.

(** [a || b] on strings: the empty string and [undefined] are falsy. *)
Definition orElse (a : option string) (b : string) : string :=
  match a with
  | Some (String c s) => String c s
  | _ => b
  end.

End JS.

(** ** Date: time values and [toISOString] (ECMAScript, 21.4.1) *)

Module Date.

Definition msPerDay : Z := 86400000.

Definition Day (t : Z) : Z := t / msPerDay.

Definition DayFromYear (y : Z) : Z :=
  365 * (y - 1970) + (y - 1969) / 4 - (y - 1901) / 100 + (y - 1601) / 400.

(** The largest [y] with [DayFromYear y <= Day t], reached from an
    estimate that is off by one year at most. *)
Definition YearFromTime (t : Z) : Z :=
  let d := Day t in
  let y := 1970 + (400 * d) / 146097 in
  if d <? DayFromYear y then y - 1
  else if DayFromYear (y + 1) <=? d then y + 1
  else y.

Definition InLeapYear (t : Z) : Z :=
  let y := YearFromTime t in
  if (y mod 4 =? 0) && (negb (y mod 100 =? 0) || (y mod 400 =? 0)) then 1 else 0.

Definition DayWithinYear (t : Z) : Z := Day t - DayFromYear (YearFromTime t).

(** Months are numbered from 0 (January) to 11 (December). *)
Definition MonthFromTime (t : Z) : Z :=
  let d := DayWithinYear t in
  let leap := InLeapYear t in
  if d <? 31 then 0
  else if d <? 59 + leap then 1
  else if d <? 90 + leap then 2
  else if d <? 120 + leap then 3
  else if d <? 151 + leap then 4
  else if d <? 181 + leap then 5
  else if d <? 212 + leap then 6
  else if d <? 243 + leap then 7
  else if d <? 273 + leap then 8
  else if d <? 304 + leap then 9
  else if d <? 334 + leap then 10
  else 11.

Definition DateFromTime (t : Z) : Z :=
  let d := DayWithinYear t in
  let leap := InLeapYear t in
  match MonthFromTime t with
  | 0 => d + 1
  | 1 => d - 30
  | 2 => d - 58 - leap
  | 3 => d - 89 - leap
  | 4 => d - 119 - leap
  | 5 => d - 150 - leap
  | 6 => d - 180 - leap
  | 7 => d - 211 - leap
  | 8 => d - 242 - leap
  | 9 => d - 272 - leap
  | 10 => d - 303 - leap
  | _ => d - 333 - leap
  end.

Definition HourFromTime (t : Z) : Z := (t / 3600000) mod 24.
Definition MinFromTime (t : Z) : Z := (t / 60000) mod 60.
Definition SecFromTime (t : Z) : Z := (t / 1000) mod 60.
Definition msFromTime (t : Z) : Z := t mod 1000.

Definition digit (n : Z) : ascii := ascii_of_N (48 + Z.to_N (n mod 10)).

Fixpoint fixedOnto (width : nat) (n : Z) (acc : string) : string :=
  match width with
  | O => acc
  | S width' => fixedOnto width' (n / 10) (String (digit n) acc)
  end.

(** The last [width] decimal digits of [n], zero-padded. *)
Definition fixed (width : nat) (n : Z) : string := fixedOnto width n EmptyString.

(** Years 0 to 9999 are written with four digits, the others with a
    sign and six digits. *)
Definition yearString (y : Z) : string :=
  if (0 <=? y) && (y <=? 9999) then fixed 4 y
  else (if y <? 0 then "-" else "+") +:+ fixed 6 (Z.abs y).

(** [new Date(t).toISOString()]: YYYY-MM-DDTHH:mm:ss.sssZ, in UTC. *)
Definition toISOString (t : Z) : string :=
  yearString (YearFromTime t) +:+ "-" +:+ fixed 2 (MonthFromTime t + 1)
    +:+ "-" +:+ fixed 2 (DateFromTime t)
    +:+ "T" +:+ fixed 2 (HourFromTime t) +:+ ":" +:+ fixed 2 (MinFromTime t)
    +:+ ":" +:+ fixed 2 (SecFromTime t) +:+ "." +:+ fixed 3 (msFromTime t) +:+ "Z".

End Date.

(** ** The world the program reads *)

Record World := {
  now : Z;                      (* the clock: milliseconds since the epoch *)
  timezoneOffset : Z;           (* minutes between UTC and local time *)
  entropy : nat -> Byte.byte;   (* the bytes the random source will give *)
  drawn : nat;                  (* how many of them were consumed *)
  env : gmap string string      (* process.env *)
}.

Definition M (A : Type) : Type := World -> A * World.

Definition ret {A} (a : A) : M A := fun w => (a, w).
Definition bind {A B} (m : M A) (k : A -> M B) : M B :=
  fun w => let '(a, w') := m w in k a w'.

Notation "'let!' x ':=' m 'in' k" := (bind m (fun x => k))
  (at level 10, x name, m at level 100, k at level 200).

(** [new Date()], as its time value. *)
Definition newDate : M Z := fun w => (now w, w).

(** [crypto.randomBytes(n)]. *)
Definition randomBytes (n : nat) : M (list Z) :=
  fun w =>
    (map (fun i => Z.of_N (Byte.to_N (entropy w i))) (seq (drawn w) n),
     {| now := now w; timezoneOffset := timezoneOffset w; entropy := entropy w;
        drawn := (drawn w + n)%nat; env := env w |}).

(** [process.env.NAME]. *)
Definition getenv (name : string) : M (option string) :=
  fun w => (env w !! name, w).

(** ** The program *)

Record ApiKey := { key : string; secret : string }.

Record AuthorizationArgs := {
  host : string;
  apiKey : ApiKey;
  engineHost : string
}.

Definition nthPart (parts : list string) (i : nat) : string := nth i parts EmptyString.

Definition getDateTime : M string :=
  let! t := newDate in
  let parts := JS.split (Date.toISOString t) "T" in
  let date := JS.replaceAll (nthPart parts 0) "-" "" in
  let time := JS.substring (JS.replaceAll (nthPart parts 1) ":" "") 0 6 in
  ret (date +:+ time).

Definition getSignatureKey (key : string) (params : list string) : string :=
  let signature :=
    fold_left (fun signature p => Words (HmacSHA256 p signature))
              params (Str ("IW1" +:+ key)) in
  toString (HmacSHA256 "iw1_request" signature).

Definition path : string := "/ai.inworld.engine.WorldEngine/GenerateToken".

Definition getAuthorization (args : AuthorizationArgs) : M string :=
  let key := key (apiKey args) in
  let secret := secret (apiKey args) in
  let! datetime := getDateTime in
  let! bytes := randomBytes 16 in
  let nonce := JS.slice (bufferToHex bytes) 1 12 in
  let method := JS.substring path 1 (String.length path) in
  let signature :=
    getSignatureKey secret
      [ datetime; JS.replace (engineHost args) ":443" ""; method; nonce ] in
  ret ("IW1-HMAC-SHA256 ApiKey=" +:+ key +:+ ",DateTime=" +:+ datetime
         +:+ ",Nonce=" +:+ nonce +:+ ",Signature=" +:+ signature).

Definition generateAuthHeader : M string :=
  let! k := getenv "INWORLD_KEY" in
  let! s := getenv "INWORLD_SECRET" in
  let apiKey := {| key := JS.orElse k ""; secret := JS.orElse s "" |} in
  let! h := getenv "INWORLD_HOST" in
  let host := JS.orElse h "api.inworld.ai" in
  let! e := getenv "INWORLD_ENGINE_HOST" in
  let engineHost := JS.orElse e "api-engine.inworld.ai" in
  getAuthorization {| host := host; apiKey := apiKey; engineHost := engineHost |}.

(** The call [axios.post(url, {key, resources}, {headers})] of
    [getJwtToken]. *)
Record Request := {
  url : string;
  bodyKey : string;
  bodyResources : list string;
  headerAuthorization : string;
  headerContentType : string
}.

Definition getJwtToken : M Request :=
  let! h := getenv "INWORLD_HOST" in
  let host := JS.orElse h "api.inworld.ai" in
  let! authHeader := generateAuthHeader in
  let! k := getenv "INWORLD_KEY" in
  let apiKey := JS.orElse k "" in
  let! wn := getenv "INWORLD_WORKSPACE" in
  let workspaceName := JS.orElse wn "workspaces/default-workspace" in
  ret {| url := "https://" +:+ host +:+ "/auth/v1/tokens/token:generate";
         bodyKey := apiKey;
         bodyResources := [workspaceName];
         headerAuthorization := authHeader;
         headerContentType := "application/json" |}.

(** ** The statements of the specification *)

Definition isLowerHex (c : ascii) : bool :=
  let n := N_of_ascii c in
  ((48 <=? n) && (n <=? 57) || (97 <=? n) && (n <=? 102))%N.

Definition isDigit (c : ascii) : bool :=
  let n := N_of_ascii c in ((48 <=? n) && (n <=? 57))%N.

Fixpoint allChars (p : ascii -> bool) (s : string) : bool :=
  match s with
  | EmptyString => true
  | String c s' => p c && allChars p s'
  end.

(** A signature of valid format: 64 lowercase hexadecimal characters. *)
Definition isLowerHex64 (s : string) : bool :=
  (String.length s =? 64)%nat && allChars isLowerHex s.

(** Whether [pattern] occurs somewhere in [s]. *)
Fixpoint occursIn (pattern s : string) : bool :=
  match JS.stripPrefix pattern s with
  | Some _ => true
  | None =>
      match s with
      | EmptyString => false
      | String _ s' => occursIn pattern s'
      end
  end.

Module Reference.

(** HMAC (RFC 2104) over SHA-256, on bytes:
    H((K' xor opad) || H((K' xor ipad) || message)), where K' is the key,
    hashed when longer than a block, filled with zeros to a block. *)
Definition blockKey (k : list Z) : list Z :=
  let k' := if (64 <? length k)%nat then SHA256.sha256 k else k in
  k' ++ repeat 0 (64 - length k')%nat.

Definition hmac_sha256 (k message : list Z) : list Z :=
  SHA256.sha256 (map (Z.lxor 0x5c) (blockKey k)
                   ++ SHA256.sha256 (map (Z.lxor 0x36) (blockKey k) ++ message)).

(** The chain as the specification words it: [v0 = "IW1" + secret],
    [v_i = HMAC-SHA256(key = v_(i-1), message = p_i)] on the raw bytes,
    and the hexadecimal form of
    [HMAC-SHA256(key = v4, message = "iw1_request")]. *)
Definition signature (s p1 p2 p3 p4 : string) : string :=
  let v0 := bytes_of_string ("IW1" +:+ s) in
  let v1 := hmac_sha256 v0 (bytes_of_string p1) in
  let v2 := hmac_sha256 v1 (bytes_of_string p2) in
  let v3 := hmac_sha256 v2 (bytes_of_string p3) in
  let v4 := hmac_sha256 v3 (bytes_of_string p4) in
  toString (hmac_sha256 v4 (bytes_of_string "iw1_request")).

(** The variant the README prints: every intermediate HMAC is turned
    into its hexadecimal text before it serves as the next key. *)
Definition readmeSignature (s : string) (params : list string) : string :=
  let signature :=
    fold_left (fun signature p => toString (HmacSHA256 p (Str signature)))
              params ("IW1" +:+ s) in
  toString (HmacSHA256 "iw1_request" (Str signature)).

(** The host as the specification words it: a trailing [":443"] is
    removed, any other host is left as it is. *)
Fixpoint stripTrailing443 (h : string) : string :=
  match h with
  | EmptyString => EmptyString
  | String c h' => if String.eqb h ":443" then EmptyString
                   else String c (stripTrailing443 h')
  end.

End Reference.

(** The timestamp and the nonce that [getAuthorization] draws in a world. *)
Definition timestampOf (w : World) : string := fst (getDateTime w).

Definition nonceBytesOf (w : World) : list Z :=
  fst (randomBytes 16 (snd (getDateTime w))).

Definition nonceOf (w : World) : string :=
  JS.slice (bufferToHex (nonceBytesOf w)) 1 12.

(** A world whose clock shows [t] and whose random source gives [bs],
    then zeros. *)
Definition worldAt (t : Z) (bs : list Byte.byte) : World :=
  {| now := t; timezoneOffset := 0;
     entropy := fun i => nth i bs Byte.x00; drawn := 0; env := ∅ |}.

(** The same world in another time zone, and with one more variable in
    its environment. *)
Definition setTimezone (tz : Z) (w : World) : World :=
  {| now := now w; timezoneOffset := tz; entropy := entropy w;
     drawn := drawn w; env := env w |}.

Definition setEnv (name value : string) (w : World) : World :=
  {| now := now w; timezoneOffset := timezoneOffset w; entropy := entropy w;
     drawn := drawn w; env := <[name := value]> (env w) |}.

(** YYYYMMDDHHMMSS for the UTC fields of a time value. *)
Definition utcFields (t : Z) : string :=
  Date.fixed 4 (Date.YearFromTime t) +:+ Date.fixed 2 (Date.MonthFromTime t + 1)
    +:+ Date.fixed 2 (Date.DateFromTime t) +:+ Date.fixed 2 (Date.HourFromTime t)
    +:+ Date.fixed 2 (Date.MinFromTime t) +:+ Date.fixed 2 (Date.SecFromTime t).

(** The header that carries a key, a timestamp, a nonce and a signature. *)
Definition headerOf (k t n sig : string) : string :=
  "IW1-HMAC-SHA256 ApiKey=" +:+ k +:+ ",DateTime=" +:+ t
    +:+ ",Nonce=" +:+ n +:+ ",Signature=" +:+ sig.

(** [s] has no character [c]. *)
Definition lacks (c : ascii) (s : string) : bool :=
  allChars (fun a => negb (Ascii.eqb a c)) s.

(** The two halves of an ISO string of a four-digit year, by their
    characters. *)
Definition isoDate (y1 y2 y3 y4 mo1 mo2 d1 d2 : ascii) : string :=
  String y1 (String y2 (String y3 (String y4
    (String "-" (String mo1 (String mo2
    (String "-" (String d1 (String d2 EmptyString))))))))).

Definition isoTime (h1 h2 mi1 mi2 s1 s2 ms1 ms2 ms3 : ascii) : string :=
  String h1 (String h2 (String ":" (String mi1 (String mi2
    (String ":" (String s1 (String s2
    (String "." (String ms1 (String ms2 (String ms3 "Z"))))))))))).

(** ** More of the world and of the ISO string *)

Definition unsetEnv (name : string) (w : World) : World :=
  {| now := now w; timezoneOffset := timezoneOffset w; entropy := entropy w;
     drawn := drawn w; env := delete name (env w) |}.

(** The world after [n] more random bytes were read. *)
Definition afterDraw (n : nat) (w : World) : World :=
  {| now := now w; timezoneOffset := timezoneOffset w; entropy := entropy w;
     drawn := (drawn w + n)%nat; env := env w |}.

(** The text before and after the [T] of [toISOString]. *)
Definition isoDatePart (t : Z) : string :=
  Date.yearString (Date.YearFromTime t) +:+ "-"
    +:+ Date.fixed 2 (Date.MonthFromTime t + 1) +:+ "-"
    +:+ Date.fixed 2 (Date.DateFromTime t).

Definition isoTimePart (t : Z) : string :=
  Date.fixed 2 (Date.HourFromTime t) +:+ ":" +:+ Date.fixed 2 (Date.MinFromTime t)
    +:+ ":" +:+ Date.fixed 2 (Date.SecFromTime t) +:+ "."
    +:+ Date.fixed 3 (Date.msFromTime t) +:+ "Z".

(** What is left of the year once [replace(/-/g, '')] has run: a
    negative year loses its sign, a year above 9999 keeps its plus. *)
Definition yearDigits (y : Z) : string :=
  if (0 <=? y) && (y <=? 9999) then Date.fixed 4 y
  else if y <? 0 then Date.fixed 6 (Z.abs y)
  else "+" +:+ Date.fixed 6 (Z.abs y).

(** ** Reading a timestamp back *)

Definition digitValue (c : ascii) : Z := byte_of_ascii c - 48.

Fixpoint numberOnto (s : string) (acc : Z) : Z :=
  match s with
  | EmptyString => acc
  | String c s' => numberOnto s' (10 * acc + digitValue c)
  end.

(** The decimal number written at [pos], on [len] characters. *)
Definition numberAt (s : string) (pos len : nat) : Z :=
  numberOnto (String.substring pos len s) 0.

Definition leapOf (y : Z) : Z :=
  if (y mod 4 =? 0) && (negb (y mod 100 =? 0) || (y mod 400 =? 0)) then 1 else 0.

(** Days of the year before the first of month [m], January being 1. *)
Definition daysBeforeMonth (leap m : Z) : Z :=
  match m with
  | 1 => 0
  | 2 => 31
  | 3 => 59 + leap
  | 4 => 90 + leap
  | 5 => 120 + leap
  | 6 => 151 + leap
  | 7 => 181 + leap
  | 8 => 212 + leap
  | 9 => 243 + leap
  | 10 => 273 + leap
  | 11 => 304 + leap
  | _ => 334 + leap
  end.

(** Seconds since the epoch of a UTC date and time of day. *)
Definition secondOfFields (Y Mo D h m s : Z) : Z :=
  (Date.DayFromYear Y + daysBeforeMonth (leapOf Y) Mo + D - 1) * 86400
  + h * 3600 + m * 60 + s.

(** The second a YYYYMMDDHHMMSS timestamp names. *)
Definition secondOfTimestamp (ts : string) : Z :=
  secondOfFields (numberAt ts 0 4) (numberAt ts 4 2) (numberAt ts 6 2)
                 (numberAt ts 8 2) (numberAt ts 10 2) (numberAt ts 12 2).

(** The eleven digits [slice(1, 12)] keeps of the hexadecimal form of
    the bytes [b0 b1 b2 b3 b4 b5 ...]. *)
Definition nonceDigits (b0 b1 b2 b3 b4 b5 : Z) : string :=
  String (hexDigit b0)
    (String (hexDigit (b1 / 16)) (String (hexDigit b1)
    (String (hexDigit (b2 / 16)) (String (hexDigit b2)
    (String (hexDigit (b3 / 16)) (String (hexDigit b3)
    (String (hexDigit (b4 / 16)) (String (hexDigit b4)
    (String (hexDigit (b5 / 16)) (String (hexDigit b5) EmptyString)))))))))).

(** The random byte a world gives at position [i] of its next draw. *)
Definition nextByte (w : World) (i : nat) : Z :=
  Z.of_N (Byte.to_N (entropy w (drawn w + i)%nat)).

(** The chaining key after the parameters, on raw bytes. *)
Definition chainKey (s : string) (params : list string) : list Z :=
  fold_left (fun k p => Reference.hmac_sha256 k (bytes_of_string p))
            params (bytes_of_string ("IW1" +:+ s)).

(** ** The call to the service and the entry point *)

Record JwtTokenResponse := {
  token : string;
  expirationTime : string;
  type : string;
  sessionId : option string
}.

Module Run.

Section Call.

(** The body of an error response, and whether JavaScript takes it for
    true. *)
Variable Data : Type.
Variable truthy : Data -> bool.

(** What [axios.post] can reject with: an error of axios, with the
    response body when there was a response, or anything else. *)
Inductive Thrown :=
| AxiosError (responseData : option Data) (message : string)
| OtherError (description : string).

(** [axios.post] as the request decides it: the [data] of the response,
    or the rejection. *)
Variable post : Request -> Thrown + JwtTokenResponse.

Inductive Stream := Out | Err.

Inductive LogArg :=
| Text (s : string)
| Body (d : Data)
| Caught (e : Thrown)
| Json (r : JwtTokenResponse).   (* JSON.stringify(r, null, 2) *)

Record Entry := { stream : Stream; args : list LogArg }.

Record Process := { world : World; console : list Entry }.

(** Computations that read the world, write to the console, and may
    throw. *)
Definition P (A : Type) : Type := Process -> (Thrown + A) * Process.

Definition pure {A} (a : A) : P A := fun p => (inr a, p).
Definition throw {A} (e : Thrown) : P A := fun p => (inl e, p).
Definition andThen {A B} (m : P A) (k : A -> P B) : P B :=
  fun p => match m p with
           | (inr a, p') => k a p'
           | (inl e, p') => (inl e, p')
           end.
Definition tryCatch {A} (body : P A) (handler : Thrown -> P A) : P A :=
  fun p => match body p with
           | (inr a, p') => (inr a, p')
           | (inl e, p') => handler e p'
           end.
Definition lift {A} (m : M A) : P A :=
  fun p => let '(a, w) := m (world p) in
           (inr a, {| world := w; console := console p |}).
Definition await {A} (r : Thrown + A) : P A := fun p => (r, p).
Definition write (st : Stream) (xs : list LogArg) : P unit :=
  fun p => (inr tt, {| world := world p;
                       console := console p ++ [{| stream := st; args := xs |}] |}).
Definition consoleLog := write Out.
Definition consoleError := write Err.

Notation "'do!' x ':=' m 'in' k" := (andThen m (fun x => k))
  (at level 10, x name, m at level 100, k at level 200).
Notation "m ';;;' k" := (andThen m (fun _ => k))
  (at level 100, right associativity).

(** The request of [getJwtToken], built before its [try]. *)
Definition request : M Request := getJwtToken.

(** [error.response?.data || error.message] *)
Definition dataOrMessage (responseData : option Data) (message : string) : LogArg :=
  match responseData with
  | Some d => if truthy d then Body d else Text message
  | None => Text message
  end.

Definition getJwtToken : P JwtTokenResponse :=
  do! r := lift request in
  tryCatch
    (do! response := await (post r) in
     pure response)
    (fun error =>
       match error with
       | AxiosError responseData message =>
           consoleError [Text "API Error:"; dataOrMessage responseData message]
       | OtherError _ =>
           consoleError [Text "Error:"; Caught error]
       end ;;;
       throw error).

Definition newline : string := String (ascii_of_nat 10) EmptyString.

Definition main : P unit :=
  tryCatch
    (do! jwtToken := getJwtToken in
     consoleLog [Json jwtToken] ;;;
     consoleLog [Text (newline +:+
       "This JWT token can be used to authenticate API requests to Inworld.")] ;;;
     consoleLog [Text "Include it in your API requests as:"] ;;;
     consoleLog [Text ("Authorization: " +:+ type jwtToken +:+ " "
                         +:+ JS.substring (token jwtToken) 0 15 +:+ "...")] ;;;
     consoleLog [Text (newline +:+ "The token expires at:");
                 Text (expirationTime jwtToken)])
    (fun error => consoleError [Text "Error in main:"; Caught error]).

End Call.

Arguments AxiosError {Data}.
Arguments OtherError {Data}.
Arguments Text {Data}.
Arguments Body {Data}.
Arguments Caught {Data}.
Arguments Json {Data}.
Arguments stream {Data}.
Arguments args {Data}.
Arguments world {Data}.
Arguments console {Data}.
Arguments Build_Entry {Data}.
Arguments Build_Process {Data}.

(** The request a process sends and the world it is left in. *)
Definition requestOf {Data} (p : Process Data) : Request :=
  fst (request (world p)).

Definition worldAfter {Data} (p : Process Data) : World :=
  snd (request (world p)).

(** The lines [main] prints for a token. *)
Definition successLines {Data} (jwtToken : JwtTokenResponse) : list (Entry Data) :=
  [ {| stream := Out; args := [Json jwtToken] |};
    {| stream := Out;
       args := [Text (newline +:+
         "This JWT token can be used to authenticate API requests to Inworld.")] |};
    {| stream := Out;
       args := [Text "Include it in your API requests as:"] |};
    {| stream := Out;
       args := [Text ("Authorization: " +:+ type jwtToken +:+ " "
                      +:+ JS.substring (token jwtToken) 0 15 +:+ "...")] |};
    {| stream := Out;
       args := [Text (newline +:+ "The token expires at:");
                    Text (expirationTime jwtToken)] |} ].

(** The entries a run added to the console. *)
Definition added {Data} (before after : Process Data) : list (Entry Data) :=
  skipn (length (console before)) (console after).

End Run.

(** ** Strings as JavaScript holds them, and the error of [Utf8.parse] *)

Module Utf16.

(** A JavaScript string: its UTF-16 code units, each in 0..65535. *)
Definition JSString := list Z.

Definition isHigh (c : Z) : bool := (0xD800 <=? c) && (c <=? 0xDBFF).
Definition isLow (c : Z) : bool := (0xDC00 <=? c) && (c <=? 0xDFFF).

(** [s.isWellFormed()]: every surrogate stands in a pair, high then low. *)
Fixpoint isWellFormed (s : JSString) : bool :=
  match s with
  | [] => true
  | c :: rest =>
      if isHigh c then
        match rest with
        | d :: rest' => isLow d && isWellFormed rest'
        | [] => false
        end
      else negb (isLow c) && isWellFormed rest
  end.

Definition codePoint (hi lo : Z) : Z :=
  0x10000 + (hi - 0xD800) * 0x400 + (lo - 0xDC00).

(** The UTF-8 form of a code point. *)
Definition utf8Bytes (cp : Z) : list Z :=
  if cp <? 0x80 then [cp]
  else if cp <? 0x800 then [0xC0 + cp / 64; 0x80 + cp mod 64]
  else if cp <? 0x10000 then
    [0xE0 + cp / 4096; 0x80 + (cp / 64) mod 64; 0x80 + cp mod 64]
  else
    [0xF0 + cp / 262144; 0x80 + (cp / 4096) mod 64;
     0x80 + (cp / 64) mod 64; 0x80 + cp mod 64].

Inductive JSError := URIError.

(** [unescape(encodeURIComponent(s))]: the UTF-8 bytes of [s], or the
    [URIError] that [encodeURIComponent] throws at a surrogate without
    its partner. *)
Fixpoint encode (s : JSString) : JSError + list Z :=
  match s with
  | [] => inr []
  | c :: rest =>
      if isHigh c then
        match rest with
        | d :: rest' =>
            if isLow d then
              match encode rest' with
              | inr bs => inr (utf8Bytes (codePoint c d) ++ bs)
              | inl e => inl e
              end
            else inl URIError
        | [] => inl URIError
        end
      else if isLow c then inl URIError
      else
        match encode rest with
        | inr bs => inr (utf8Bytes c ++ bs)
        | inl e => inl e
        end
  end.

Fixpoint string_of_bytes (bs : list Z) : string :=
  match bs with
  | [] => EmptyString
  | b :: rest => String (ascii_of_N (Z.to_N b)) (string_of_bytes rest)
  end.

(** [Utf8.parse] of [crypto-js], with its error. *)
Definition parse (s : JSString) : JSError + string :=
  match encode s with
  | inr bs => inr (string_of_bytes bs)
  | inl e => inl e
  end.

(** The text of a well-formed string. *)
Definition utf8 (s : JSString) : string :=
  match parse s with
  | inr text => text
  | inl _ => EmptyString
  end.

(** The code units of an ASCII literal. *)
Definition ofAscii (s : string) : JSString := bytes_of_string s.

End Utf16.

(** [getSignatureKey] on JavaScript strings, with the error [crypto-js]
    can throw. *)
Module Throwing.

Import Utf16.

(** The source's [string | CryptoJS.lib.WordArray], on code units. *)
Inductive Key :=
| StrJS (s : JSString)
| WordsJS (w : WordArray).

(** [HMAC.init] parses a string key, then [finalize] parses the
    message; either may throw. *)
Definition parseKey (key : Key) : JSError + StringOrWords :=
  match key with
  | StrJS s =>
      match parse s with
      | inr text => inr (Str text)
      | inl e => inl e
      end
  | WordsJS w => inr (Words w)
  end.

Definition HmacSHA256 (message : JSString) (key : Key) : JSError + WordArray :=
  match parseKey key with
  | inl e => inl e
  | inr k =>
      match parse message with
      | inl e => inl e
      | inr text => inr (HmacSHA256 text k)
      end
  end.

(** [params.forEach((p) => { signature = HmacSHA256(p, signature) })]:
    a throw in the callback ends the loop. *)
Fixpoint forEach (params : list JSString) (signature : Key) : JSError + Key :=
  match params with
  | [] => inr signature
  | p :: rest =>
      match HmacSHA256 p signature with
      | inl e => inl e
      | inr w => forEach rest (WordsJS w)
      end
  end.

Definition getSignatureKey (key : JSString) (params : list JSString)
  : JSError + string :=
  match forEach params (StrJS (ofAscii "IW1" ++ key)) with
  | inl e => inl e
  | inr signature =>
      match HmacSHA256 (ofAscii "iw1_request") signature with
      | inl e => inl e
      | inr w => inr (toString w)
      end
  end.

End Throwing.

(** ** Known answers *)

Example sha256_abc :
  toString (SHA256.sha256 (bytes_of_string "abc"))
  = "ba7816bf8f01cfea414140de5dae2223b00361a396177a9cb410ff61f20015ad"%string.
Proof. vm_compute. reflexivity. Qed.

Example sha256_two_blocks :
  toString (SHA256.sha256 (bytes_of_string
     "abcdbcdecdefdefgefghfghighijhijkijkljklmklmnlmnomnopnopq"))
  = "248d6a61d20638b8e5c026930c3e6039a33ce45964ff2167f6ecedd419db06c1"%string.
Proof. vm_compute. reflexivity. Qed.

Example hmac_rfc4231_case2 :
  toString (HmacSHA256 "what do ya want for nothing?" (Str "Jefe"))
  = "5bdcc146bf60754e6a042426089575c75a003f089d2739839dec58b964ec3843"%string.
Proof. vm_compute. reflexivity. Qed.

Example hmac_rfc4231_case6 :
  toString (HmacSHA256 "Test Using Larger Than Block-Size Key - Hash Key First"
                       (Words (repeat 0xaa 131)))
  = "60e431591ee0b67f0d8a26aacbf5b77f8e0bc6213728c5140546040f0ee37f54"%string.
Proof. vm_compute. reflexivity. Qed.


Example signature_known_vector :
  getSignatureKey "testsecret"
    [ "20200101000000"; "api.inworld.ai";
      "ai.inworld.engine.WorldEngine/GenerateToken"; "abc123" ]
  = "6966e81d2f9e01af74ced846a86ef9df501d5f5be273510511aa5e5d96eb1eaf"%string.
Proof. vm_compute. reflexivity. Qed.

(** The README's variant is another function: the code keeps the raw
    bytes between the steps. *)
Example readme_variant_differs :
  Reference.readmeSignature "testsecret"
    [ "20200101000000"; "api.inworld.ai";
      "ai.inworld.engine.WorldEngine/GenerateToken"; "abc123" ]
  = "468fa24417a38c40671fcf5166a8f4f88570daa82ccdbb515dc648dbb214aacd"%string.
Proof. vm_compute. reflexivity. Qed.

(** ** The hexadecimal form of a digest *)

Section Hex.

Lemma below_16_cases (P : Z -> Prop) :
  (forall k : nat, (k < 16)%nat -> P (Z.of_nat k)) ->
  forall r, 0 <= r < 16 -> P r.
Proof.
  intros HP r Hr. rewrite <- (Z2Nat.id r) by lia. apply HP. lia.
Qed.

Lemma hexDigit_lower (n : Z) : isLowerHex (hexDigit n) = true.
Proof.
  unfold hexDigit.
  pose proof (Z.mod_pos_bound n 16 ltac:(lia)) as Hr.
  revert Hr. generalize (n mod 16). apply below_16_cases.
  intros k Hk.
  do 16 (destruct k as [|k]; [reflexivity|]). lia.
Qed.

Lemma toString_length (w : WordArray) :
  String.length (toString w) = (2 * length w)%nat.
Proof.
  induction w as [|b w IH]; simpl; [reflexivity|]. rewrite IH. lia.
Qed.

Lemma toString_lower (w : WordArray) : allChars isLowerHex (toString w) = true.
Proof.
  induction w as [|b w IH]; simpl; [reflexivity|].
  now rewrite !hexDigit_lower, IH.
Qed.

Lemma sha256_length (msg : list Z) : length (SHA256.sha256 msg) = 32%nat.
Proof. reflexivity. Qed.

Lemma HmacSHA256_length (message : string) (k : StringOrWords) :
  length (HmacSHA256 message k) = 32%nat.
Proof. unfold HmacSHA256. apply sha256_length. Qed.

Lemma toString_Hmac_format (message : string) (k : StringOrWords) :
  isLowerHex64 (toString (HmacSHA256 message k)) = true.
Proof.
  unfold isLowerHex64.
  rewrite toString_length, HmacSHA256_length, toString_lower. reflexivity.
Qed.

Lemma getSignatureKey_format (k : string) (params : list string) :
  isLowerHex64 (getSignatureKey k params) = true.
Proof. unfold getSignatureKey. apply toString_Hmac_format. Qed.

End Hex.

(** ** The source's HMAC is the reference HMAC *)

Lemma HmacSHA256_Str (message k : string) :
  HmacSHA256 message (Str k)
  = Reference.hmac_sha256 (bytes_of_string k) (bytes_of_string message).
Proof. reflexivity. Qed.

Lemma HmacSHA256_Words (message : string) (k : WordArray) :
  HmacSHA256 message (Words k)
  = Reference.hmac_sha256 k (bytes_of_string message).
Proof. reflexivity. Qed.

(** C1. For every secret and every four parameters, [getSignatureKey]
    is the reference chain: it starts from the text ["IW1" + secret],
    applies HMAC-SHA256 once for each parameter with the previous raw
    output as key and the parameter as message, and returns the lowercase
    hexadecimal form of the HMAC of ["iw1_request"] under the last key. *)
Theorem getSignatureKey_is_reference_chain (s p1 p2 p3 p4 : string) :
  getSignatureKey s [p1; p2; p3; p4] = Reference.signature s p1 p2 p3 p4.
Proof.
  unfold getSignatureKey, Reference.signature. cbn [fold_left].
  now rewrite HmacSHA256_Str, !HmacSHA256_Words.
Qed.

(** ** The calendar of [Date] *)

Section Calendar.

Import Date.

Lemma DayFromYear_step (y : Z) :
  DayFromYear (y + 1) - DayFromYear y
  = 365 + (if (y mod 4 =? 0) && (negb (y mod 100 =? 0) || (y mod 400 =? 0))
           then 1 else 0).
Proof.
  unfold DayFromYear.
  destruct (y mod 4 =? 0) eqn:E4; destruct (y mod 100 =? 0) eqn:E100;
    destruct (y mod 400 =? 0) eqn:E400; cbn [andb orb negb];
    rewrite ?Z.eqb_eq, ?Z.eqb_neq in *; Z.div_mod_to_equations; lia.
Qed.

Lemma DayFromYear_mono (y1 y2 : Z) : y1 <= y2 -> DayFromYear y1 <= DayFromYear y2.
Proof. unfold DayFromYear. intros. Z.div_mod_to_equations. lia. Qed.

(** [YearFromTime t] is the year the day of [t] falls in. *)
Lemma YearFromTime_spec (t : Z) :
  DayFromYear (YearFromTime t) <= Day t < DayFromYear (YearFromTime t + 1).
Proof.
  unfold YearFromTime. generalize (Day t). intros d. cbv zeta.
  destruct (d <? _) eqn:E1; [|destruct (_ <=? d) eqn:E2];
    rewrite ?Z.ltb_lt, ?Z.ltb_ge, ?Z.leb_le, ?Z.leb_gt in *;
    unfold DayFromYear in *; Z.div_mod_to_equations; lia.
Qed.

Lemma YearFromTime_four_digits (t : Z) :
  -62167219200000 <= t <= 253402300799999 -> 0 <= YearFromTime t <= 9999.
Proof.
  intros Ht. pose proof (YearFromTime_spec t) as [Hlo Hhi].
  assert (Hd : -719528 <= Day t <= 2932896)
    by (unfold Day, msPerDay; Z.div_mod_to_equations; lia).
  split.
  - destruct (Z_lt_le_dec (YearFromTime t) 0) as [Hneg|]; [|lia].
    pose proof (DayFromYear_mono (YearFromTime t + 1) 0 ltac:(lia)) as Hm.
    change (DayFromYear 0) with (-719528) in Hm. lia.
  - destruct (Z_lt_le_dec 9999 (YearFromTime t)) as [Hbig|]; [|lia].
    pose proof (DayFromYear_mono 10000 (YearFromTime t) ltac:(lia)) as Hm.
    change (DayFromYear 10000) with 2932897 in Hm. lia.
Qed.

Lemma InLeapYear_range (t : Z) : 0 <= InLeapYear t <= 1.
Proof. unfold InLeapYear. destruct (_ && _); lia. Qed.

Lemma DayWithinYear_range (t : Z) : 0 <= DayWithinYear t < 365 + InLeapYear t.
Proof.
  unfold DayWithinYear, InLeapYear.
  pose proof (YearFromTime_spec t).
  pose proof (DayFromYear_step (YearFromTime t)). lia.
Qed.

Lemma MonthFromTime_range (t : Z) : 0 <= MonthFromTime t <= 11.
Proof.
  unfold MonthFromTime. cbv zeta.
  repeat match goal with |- context [if ?b then _ else _] => destruct b end; lia.
Qed.

Lemma DateFromTime_range (t : Z) : 1 <= DateFromTime t <= 31.
Proof.
  pose proof (DayWithinYear_range t). pose proof (InLeapYear_range t).
  unfold DateFromTime, MonthFromTime. cbv zeta.
  repeat match goal with
         | |- context [if ?a <? ?b then _ else _] => destruct (Z.ltb_spec a b)
         end; lia.
Qed.

Lemma isDigit_digit (n : Z) : isDigit (digit n) = true.
Proof.
  unfold digit.
  pose proof (Z.mod_pos_bound n 10 ltac:(lia)) as Hr.
  revert Hr. generalize (n mod 10). intros r Hr.
  rewrite <- (Z2Nat.id r) by lia.
  assert (Hk : (Z.to_nat r < 10)%nat) by lia.
  revert Hk. generalize (Z.to_nat r). intros k Hk.
  do 10 (destruct k as [|k]; [reflexivity|]). lia.
Qed.

Lemma digit_eqb (n : Z) (c : ascii) :
  isDigit c = false -> Ascii.eqb (digit n) c = false.
Proof.
  intros Hc. apply Ascii.eqb_neq. intros E.
  rewrite <- E, isDigit_digit in Hc. discriminate.
Qed.

Lemma yearString_four_digits (y : Z) : 0 <= y <= 9999 -> yearString y = fixed 4 y.
Proof.
  intros Hy. unfold yearString.
  destruct (Z.leb_spec 0 y); [|lia]. destruct (Z.leb_spec y 9999); [|lia].
  reflexivity.
Qed.

End Calendar.

(** ** Splitting and cleaning the ISO string *)

Section Split.

#[local] Arguments String.append !_ _ / : simpl nomatch.

Lemma split_without_separator (s : string) (c : ascii) :
  lacks c s = true -> JS.split s c = [s].
Proof.
  unfold lacks. induction s as [|a s IH]; cbn [allChars JS.split]; [reflexivity|].
  intros [Ha Hs]%andb_prop. apply negb_true_iff in Ha. rewrite Ha, (IH Hs).
  reflexivity.
Qed.

Lemma split_at_separator (x y : string) (c : ascii) :
  lacks c x = true -> JS.split (x +:+ String c y) c = x :: JS.split y c.
Proof.
  unfold lacks. induction x as [|a x IH]; cbn [allChars JS.split String.append].
  - intros _. now rewrite Ascii.eqb_refl.
  - intros [Ha Hx]%andb_prop. apply negb_true_iff in Ha. rewrite Ha, (IH Hx).
    reflexivity.
Qed.

End Split.

Section IsoShape.

#[local] Arguments String.append !_ _ / : simpl nomatch.

Import Date.

Ltac step_digits :=
  repeat (progress cbn -[digit]; rewrite ?digit_eqb by reflexivity).

Variables y1 y2 y3 y4 mo1 mo2 d1 d2 h1 h2 mi1 mi2 s1 s2 ms1 ms2 ms3 : Z.

Abbreviation date :=
  (isoDate (digit y1) (digit y2) (digit y3) (digit y4)
           (digit mo1) (digit mo2) (digit d1) (digit d2)).

Abbreviation time :=
  (isoTime (digit h1) (digit h2) (digit mi1) (digit mi2) (digit s1) (digit s2)
           (digit ms1) (digit ms2) (digit ms3)).

Lemma split_iso : JS.split (date +:+ "T" +:+ time) "T" = [date; time].
Proof.
  change (date +:+ "T" +:+ time) with (date +:+ String "T" time).
  rewrite split_at_separator, split_without_separator; [reflexivity| |];
    unfold isoDate, isoTime; step_digits; reflexivity.
Qed.

Lemma date_digits :
  JS.replaceAll date "-" ""
  = String (digit y1) (String (digit y2) (String (digit y3) (String (digit y4)
      (String (digit mo1) (String (digit mo2)
      (String (digit d1) (String (digit d2) ""))))))).
Proof. unfold isoDate. step_digits. reflexivity. Qed.

Lemma time_digits :
  JS.substring (JS.replaceAll time ":" "") 0 6
  = String (digit h1) (String (digit h2) (String (digit mi1) (String (digit mi2)
      (String (digit s1) (String (digit s2) ""))))).
Proof.
  assert (E : JS.replaceAll time ":" ""
    = String (digit h1) (String (digit h2) (String (digit mi1)
        (String (digit mi2) (String (digit s1) (String (digit s2)
        (String "." (String (digit ms1) (String (digit ms2)
        (String (digit ms3) "Z")))))))))).
  { unfold isoTime. step_digits. reflexivity. }
  rewrite E. reflexivity.
Qed.

End IsoShape.

Section Timestamp.

#[local] Arguments String.append !_ _ / : simpl nomatch.

Import Date.

Lemma getDateTime_value (w : World) :
  -62167219200000 <= now w <= 253402300799999 ->
  getDateTime w = (utcFields (now w), w).
Proof.
  intros Ht. unfold getDateTime, bind, newDate, ret, toISOString, utcFields.
  rewrite (yearString_four_digits _ (YearFromTime_four_digits _ Ht)).
  generalize (YearFromTime (now w)) (MonthFromTime (now w) + 1)
    (DateFromTime (now w)) (HourFromTime (now w)) (MinFromTime (now w))
    (SecFromTime (now w)) (msFromTime (now w)).
  intros Y Mo D h m s ms.
  pose proof (split_iso (Y / 10 / 10 / 10) (Y / 10 / 10) (Y / 10) Y (Mo / 10) Mo
    (D / 10) D (h / 10) h (m / 10) m (s / 10) s (ms / 10 / 10) (ms / 10) ms) as E.
  pose proof (date_digits (Y / 10 / 10 / 10) (Y / 10 / 10) (Y / 10) Y (Mo / 10) Mo
    (D / 10) D) as Ed.
  pose proof (time_digits (h / 10) h (m / 10) m (s / 10) s
    (ms / 10 / 10) (ms / 10) ms) as Et.
  unfold isoDate, isoTime in E, Ed, Et. cbn -[digit JS.split] in E.
  unfold fixed. cbn -[digit JS.split JS.replaceAll JS.substring nthPart].
  rewrite E. unfold nthPart. cbn [nth]. rewrite Ed, Et. reflexivity.
Qed.

Lemma utcFields_digits (t : Z) :
  String.length (utcFields t) = 14%nat /\ allChars isDigit (utcFields t) = true.
Proof.
  unfold utcFields, fixed. cbn -[digit].
  rewrite !isDigit_digit. split; reflexivity.
Qed.

End Timestamp.

(** ** Replacing the leftmost occurrence *)

Section Replace.

#[local] Arguments String.append !_ _ / : simpl nomatch.

Lemma replace_absent (pattern replacement s : string) :
  occursIn pattern s = false -> JS.replace s pattern replacement = s.
Proof.
  induction s as [|c s IH]; cbn [occursIn JS.replace];
    destruct (JS.stripPrefix pattern _); try discriminate; [reflexivity|].
  intros H. now rewrite (IH H).
Qed.

(** No occurrence of [":443"] straddles the end of [x] in
    [x ++ ":443" ++ b]: the colon is the only colon of the pattern. *)
Lemma stripPrefix_443_straddle (c : ascii) (x b : string) :
  JS.stripPrefix ":443" (String c x) = None ->
  JS.stripPrefix ":443" (String c x +:+ ":443" +:+ b) = None.
Proof.
  cbn [JS.stripPrefix String.append].
  destruct (Ascii.eqb ":" c); [|reflexivity].
  destruct x as [|c1 x]; cbn [JS.stripPrefix String.append]; [reflexivity|].
  destruct (Ascii.eqb "4" c1); [|reflexivity].
  destruct x as [|c2 x]; cbn [JS.stripPrefix String.append]; [reflexivity|].
  destruct (Ascii.eqb "4" c2); [|reflexivity].
  destruct x as [|c3 x]; cbn [JS.stripPrefix String.append]; [reflexivity|].
  destruct (Ascii.eqb "3" c3); [discriminate|reflexivity].
Qed.

Lemma replace_first_443 (a b : string) :
  occursIn ":443" a = false ->
  JS.replace (a +:+ ":443" +:+ b) ":443" "" = a +:+ b.
Proof.
  induction a as [|c a IH]; [reflexivity|].
  intros H. cbn [occursIn] in H.
  destruct (JS.stripPrefix ":443" (String c a)) eqn:E; [discriminate|].
  pose proof (stripPrefix_443_straddle c a b E) as E'.
  specialize (IH H). cbn [String.append] in E', IH |- *.
  cbn [JS.replace]. rewrite E'. now rewrite IH.
Qed.

End Replace.

(** ** What [getAuthorization] returns *)

Lemma getDateTime_world (w : World) : snd (getDateTime w) = w.
Proof. reflexivity. Qed.

Lemma getAuthorization_value (args : AuthorizationArgs) (w : World) :
  fst (getAuthorization args w)
  = headerOf (key (apiKey args)) (timestampOf w) (nonceOf w)
      (getSignatureKey (secret (apiKey args))
         [ timestampOf w; JS.replace (engineHost args) ":443" "";
           JS.substring path 1 (String.length path); nonceOf w ]).
Proof. reflexivity. Qed.

Lemma nonceBytesOf_length (w : World) : length (nonceBytesOf w) = 16%nat.
Proof.
  unfold nonceBytesOf, randomBytes. cbn [fst].
  now rewrite length_map, length_seq.
Qed.

Lemma nonce_of_sixteen_bytes (bs : list Z) :
  length bs = 16%nat ->
  String.length (toString bs) = 32%nat
  /\ String.length (JS.slice (toString bs) 1 12) = 11%nat
  /\ allChars isLowerHex (JS.slice (toString bs) 1 12) = true.
Proof.
  intros Hlen.
  do 16 (destruct bs as [|? bs]; [discriminate Hlen|]).
  destruct bs; [|discriminate Hlen].
  unfold JS.slice. cbn -[hexDigit Z.div].
  rewrite !hexDigit_lower. repeat split; reflexivity.
Qed.

Lemma timestampOf_setEnv (name value : string) (w : World) :
  timestampOf (setEnv name value w) = timestampOf w.
Proof. reflexivity. Qed.

Lemma nonceOf_setEnv (name value : string) (w : World) :
  nonceOf (setEnv name value w) = nonceOf w.
Proof. reflexivity. Qed.

(** ** The properties of the specification *)

(** C2. For every key, and for the timestamp, the nonce and the
    signature of the call, the header [getAuthorization] returns is
    exactly ["IW1-HMAC-SHA256 ApiKey=" + key + ",DateTime=" + timestamp +
    ",Nonce=" + nonce + ",Signature=" + signature]: one space after the
    scheme, commas between the fields, nothing else added. *)
Theorem getAuthorization_header_format (args : AuthorizationArgs) (w : World) :
  let k := key (apiKey args) in
  let t := timestampOf w in
  let n := nonceOf w in
  let sig :=
    getSignatureKey (secret (apiKey args))
      [ t; JS.replace (engineHost args) ":443" "";
        JS.substring path 1 (String.length path); n ] in
  fst (getAuthorization args w)
  = "IW1-HMAC-SHA256 ApiKey=" +:+ k +:+ ",DateTime=" +:+ t
      +:+ ",Nonce=" +:+ n +:+ ",Signature=" +:+ sig.
Proof. cbv zeta. rewrite getAuthorization_value. reflexivity. Qed.

Example header_at_2025 :
  fst (getAuthorization
         {| host := "api.inworld.ai";
            apiKey := {| key := "abc"; secret := "testsecret" |};
            engineHost := "api-engine.inworld.ai" |}
         (worldAt 1735689600000
            [Byte.x0d; Byte.xea; Byte.xdb; Byte.xee; Byte.xf1; Byte.x23]))
  = "IW1-HMAC-SHA256 ApiKey=abc,DateTime=20250101000000,Nonce=deadbeef123,Signature=23db6f0af7b77e0d242251530248f31c2274816df83579b546982b970d143e50"%string.
Proof. vm_compute. reflexivity. Qed.

(** C3. The host [getAuthorization] signs is [engineHost.replace(':443',
    '')]: the leftmost [":443"] is removed wherever it stands.  For the
    engine host ["example.com:4430"], which does not end in [":443"] and
    which the specification leaves unchanged, the code signs ["example.com0"]. *)
Theorem getAuthorization_signs_mangled_host :
  JS.replace "example.com:4430" ":443" "" = "example.com0"%string
  /\ Reference.stripTrailing443 "example.com:4430" = "example.com:4430"%string
  /\ forall (h : string) (k : ApiKey) (w : World),
       fst (getAuthorization
              {| host := h; apiKey := k; engineHost := "example.com:4430" |} w)
       = headerOf (key k) (timestampOf w) (nonceOf w)
           (getSignatureKey (secret k)
              [ timestampOf w; "example.com0";
                "ai.inworld.engine.WorldEngine/GenerateToken"; nonceOf w ]).
Proof.
  split; [reflexivity|]. split; [reflexivity|].
  intros h k w. rewrite getAuthorization_value. reflexivity.
Qed.

(** Where the code and the trailing-suffix rule agree. *)
Example host_443_stripped :
  JS.replace "example.com:443" ":443" "" = "example.com"%string
  /\ Reference.stripTrailing443 "example.com:443" = "example.com"%string.
Proof. split; reflexivity. Qed.

Example host_8443_unchanged :
  JS.replace "example.com:8443" ":443" "" = "example.com:8443"%string
  /\ Reference.stripTrailing443 "example.com:8443" = "example.com:8443"%string.
Proof. split; reflexivity. Qed.

(** C4 fails on the code: an empty secret is signed like any other and
    a signature of valid format comes back. *)
Lemma empty_secret_counterexample :
  getSignatureKey ""
    [ "20200101000000"; "api.inworld.ai";
      "ai.inworld.engine.WorldEngine/GenerateToken"; "abc123" ]
  = "dd7d5e0e1479561d3e0cffb2f1b9763c583773eb9c7fec88c15d77e9b3ab1e7b"%string
  /\ isLowerHex64
       (getSignatureKey ""
          [ "20200101000000"; "api.inworld.ai";
            "ai.inworld.engine.WorldEngine/GenerateToken"; "abc123" ]) = true
  /\ fst (getAuthorization
            {| host := "api.inworld.ai";
               apiKey := {| key := "abc"; secret := "" |};
               engineHost := "api-engine.inworld.ai" |}
            (worldAt 1735689600000
               [Byte.x0d; Byte.xea; Byte.xdb; Byte.xee; Byte.xf1; Byte.x23]))
     = "IW1-HMAC-SHA256 ApiKey=abc,DateTime=20250101000000,Nonce=deadbeef123,Signature=feb50ee979b239c365561cf1593b86fddf732a758ebad8f7c2d254060c195c7e"%string.
Proof. vm_compute. repeat split; reflexivity. Qed.

(** C5. [getSignatureKey] is a function of the secret and the four
    parameters alone: equal inputs give the same output, and the output
    is a string of 64 lowercase hexadecimal characters. *)
Theorem getSignatureKey_deterministic (s s' t t' h h' m m' n n' : string) :
  s = s' -> t = t' -> h = h' -> m = m' -> n = n' ->
  getSignatureKey s [t; h; m; n] = getSignatureKey s' [t'; h'; m'; n']
  /\ isLowerHex64 (getSignatureKey s [t; h; m; n]) = true
  /\ isLowerHex64 (getSignatureKey s' [t'; h'; m'; n']) = true.
Proof.
  intros -> -> -> -> ->. split; [reflexivity|].
  split; apply getSignatureKey_format.
Qed.

Lemma getSignatureKey_deterministic_witness :
  let s := "testsecret"%string in
  let t := "20200101000000"%string in
  let h := "api.inworld.ai"%string in
  let m := "ai.inworld.engine.WorldEngine/GenerateToken"%string in
  let n := "abc123"%string in
  getSignatureKey s [t; h; m; n] = getSignatureKey s [t; h; m; n]
  /\ isLowerHex64 (getSignatureKey s [t; h; m; n]) = true
  /\ isLowerHex64 (getSignatureKey s [t; h; m; n]) = true.
Proof.
  intros s t h m n.
  apply (getSignatureKey_deterministic s s t t h h m m n n); reflexivity.
Defined.

(** C6 fails outside the four-digit years: at the first instant of the
    year 10000 the timestamp is neither 14
    characters long nor numeric: [toISOString] writes such a year with
    a sign and six digits. *)
Lemma getDateTime_year_10000 :
  timestampOf (worldAt 253402300800000 []) = "+0100000101000000"%string
  /\ String.length (timestampOf (worldAt 253402300800000 [])) <> 14%nat
  /\ allChars isDigit (timestampOf (worldAt 253402300800000 [])) = false.
Proof. vm_compute. repeat split; [discriminate]. Qed.

(** C6, as the code has it.  At every instant of the years 0000 to 9999
    (UTC), [getDateTime] returns exactly 14 numeric characters, the
    digits YYYYMMDDHHMMSS of the UTC fields of the clock, whatever the
    local time zone is, and leaves the world as it was. *)
Theorem getDateTime_utc_fourteen_digits (w : World) :
  -62167219200000 <= now w <= 253402300799999 ->
  timestampOf w = utcFields (now w)
  /\ String.length (timestampOf w) = 14%nat
  /\ allChars isDigit (timestampOf w) = true
  /\ (forall tz : Z, timestampOf (setTimezone tz w) = timestampOf w)
  /\ snd (getDateTime w) = w.
Proof.
  intros Ht. unfold timestampOf at 1 2 3.
  rewrite (getDateTime_value w Ht). cbn [fst snd].
  destruct (utcFields_digits (now w)) as [Hlen Hdig].
  repeat split; try assumption. 
Qed.

Lemma getDateTime_utc_fourteen_digits_witness :
  -62167219200000 <= now (worldAt 1747363826123 []) <= 253402300799999
  /\ timestampOf (worldAt 1747363826123 []) = utcFields 1747363826123
  /\ String.length (timestampOf (worldAt 1747363826123 [])) = 14%nat
  /\ allChars isDigit (timestampOf (worldAt 1747363826123 [])) = true.
Proof.
  assert (H : -62167219200000 <= now (worldAt 1747363826123 []) <= 253402300799999)
    by (cbn [now worldAt]; lia).
  split; [exact H|].
  destruct (getDateTime_utc_fourteen_digits (worldAt 1747363826123 []) H)
    as (Hv & Hlen & Hdig & _).
  repeat split; assumption.
Defined.

Example timestamp_of_response_time :
  timestampOf (worldAt 1747363826123 []) = "20250516025026"%string.
Proof. vm_compute. reflexivity. Qed.

(** C7. The method [getAuthorization] signs is always the constant
    ["ai.inworld.engine.WorldEngine/GenerateToken"]: the path without
    its leading slash, otherwise untouched. *)
Theorem method_is_canonical_constant :
  JS.substring path 1 (String.length path)
  = "ai.inworld.engine.WorldEngine/GenerateToken"%string
  /\ path = ("/" +:+ JS.substring path 1 (String.length path))%string
  /\ forall (args : AuthorizationArgs) (w : World),
       fst (getAuthorization args w)
       = headerOf (key (apiKey args)) (timestampOf w) (nonceOf w)
           (getSignatureKey (secret (apiKey args))
              [ timestampOf w; JS.replace (engineHost args) ":443" "";
                "ai.inworld.engine.WorldEngine/GenerateToken"; nonceOf w ]).
Proof.
  split; [reflexivity|]. split; [reflexivity|].
  intros args w. rewrite getAuthorization_value. reflexivity.
Qed.

(** C9. The nonce of every call is the slice from index 1 to index 12
    of the 32 hexadecimal characters that encode 16 random bytes: 11
    lowercase hexadecimal characters, whatever the bytes are. *)
Theorem nonce_has_eleven_hex_characters (w : World) :
  length (nonceBytesOf w) = 16%nat
  /\ String.length (bufferToHex (nonceBytesOf w)) = 32%nat
  /\ nonceOf w = JS.slice (bufferToHex (nonceBytesOf w)) 1 12
  /\ String.length (nonceOf w) = 11%nat
  /\ allChars isLowerHex (nonceOf w) = true
  /\ forall args : AuthorizationArgs,
       exists sig : string,
         fst (getAuthorization args w)
         = headerOf (key (apiKey args)) (timestampOf w) (nonceOf w) sig.
Proof.
  pose proof (nonceBytesOf_length w) as Hlen.
  destruct (nonce_of_sixteen_bytes _ Hlen) as (H32 & H11 & Hhex).
  repeat split; try assumption.
  intros args. eexists. apply getAuthorization_value.
Qed.

(** ** The environment and the request *)

Lemma lookup_setEnv_ne (name name' value : string) (w : World) :
  name <> name' -> env (setEnv name value w) !! name' = env w !! name'.
Proof. intros Hne. unfold setEnv. cbn [env]. now apply lookup_insert_ne. Qed.

Lemma generateAuthHeader_value (w : World) :
  generateAuthHeader w
  = getAuthorization
      {| host := JS.orElse (env w !! "INWORLD_HOST") "api.inworld.ai";
         apiKey := {| key := JS.orElse (env w !! "INWORLD_KEY") "";
                      secret := JS.orElse (env w !! "INWORLD_SECRET") "" |};
         engineHost := JS.orElse (env w !! "INWORLD_ENGINE_HOST")
                                 "api-engine.inworld.ai" |} w.
Proof. cbv beta iota zeta delta [generateAuthHeader bind getenv]. reflexivity. Qed.

Lemma getJwtToken_value (w : World) :
  fst (getJwtToken w)
  = {| url := "https://" +:+ JS.orElse (env w !! "INWORLD_HOST") "api.inworld.ai"
                +:+ "/auth/v1/tokens/token:generate";
       bodyKey := JS.orElse (env (snd (generateAuthHeader w)) !! "INWORLD_KEY") "";
       bodyResources :=
         [JS.orElse (env (snd (generateAuthHeader w)) !! "INWORLD_WORKSPACE")
                    "workspaces/default-workspace"];
       headerAuthorization := fst (generateAuthHeader w);
       headerContentType := "application/json" |}.
Proof.
  cbv beta iota zeta delta [getJwtToken bind getenv ret].
  destruct (generateAuthHeader w) as [a w']. reflexivity.
Qed.

Lemma getAuthorization_ignores_host (h1 h2 e : string) (k : ApiKey) (w : World) :
  getAuthorization {| host := h1; apiKey := k; engineHost := e |} w
  = getAuthorization {| host := h2; apiKey := k; engineHost := e |} w.
Proof.
  cbv beta iota zeta delta [getAuthorization apiKey engineHost]. reflexivity.
Qed.

(** C10. The header does not depend on the [host] argument of
    [getAuthorization]: with the same key, engine host, clock and random
    bytes, any two hosts give the same header and the same world.  In
    [getJwtToken] the request goes to the host of [INWORLD_HOST], and
    changing that variable leaves the header as it was. *)
Theorem header_independent_of_host :
  (forall (h1 h2 e : string) (k : ApiKey) (w : World),
     getAuthorization {| host := h1; apiKey := k; engineHost := e |} w
     = getAuthorization {| host := h2; apiKey := k; engineHost := e |} w)
  /\ (forall (h : string) (w : World),
        headerAuthorization (fst (getJwtToken (setEnv "INWORLD_HOST" h w)))
        = headerAuthorization (fst (getJwtToken w)))
  /\ (forall w : World,
        url (fst (getJwtToken w))
        = ("https://" +:+ JS.orElse (env w !! "INWORLD_HOST") "api.inworld.ai"
             +:+ "/auth/v1/tokens/token:generate")%string).
Proof.
  split; [exact getAuthorization_ignores_host|].
  split; [|intros w; now rewrite getJwtToken_value].
  intros h w.
  rewrite (getJwtToken_value w), (getJwtToken_value (setEnv "INWORLD_HOST" h w)).
  cbn [headerAuthorization].
  rewrite (generateAuthHeader_value w).
  rewrite (generateAuthHeader_value (setEnv "INWORLD_HOST" h w)).
  rewrite (lookup_setEnv_ne "INWORLD_HOST" "INWORLD_KEY") by discriminate.
  rewrite (lookup_setEnv_ne "INWORLD_HOST" "INWORLD_SECRET") by discriminate.
  rewrite (lookup_setEnv_ne "INWORLD_HOST" "INWORLD_ENGINE_HOST") by discriminate.
  rewrite (getAuthorization_ignores_host
             (JS.orElse (env (setEnv "INWORLD_HOST" h w) !! "INWORLD_HOST")
                        "api.inworld.ai")
             (JS.orElse (env w !! "INWORLD_HOST") "api.inworld.ai")).
  set (args := Build_AuthorizationArgs _ _ _).
  rewrite (getAuthorization_value args w).
  rewrite (getAuthorization_value args (setEnv "INWORLD_HOST" h w)).
  now rewrite timestampOf_setEnv, nonceOf_setEnv.
Qed.

Example request_goes_to_host :
  url (fst (getJwtToken
              (setEnv "INWORLD_ENGINE_HOST" "engine.example.com:443"
                 (setEnv "INWORLD_HOST" "api.example.com" (worldAt 0 [])))))
  = "https://api.example.com/auth/v1/tokens/token:generate"%string.
Proof. rewrite getJwtToken_value. cbn [url]. vm_compute. reflexivity. Qed.

(** * Beyond the specification *)

(** ** The blocks of SHA-256 *)

(** The fuel of [blocks] is enough: the blocks are the whole input. *)
Lemma blocks_concat (fuel : nat) (bs : list Z) :
  (length bs <= fuel)%nat -> concat (SHA256.blocks fuel bs) = bs.
Proof.
  revert bs. induction fuel as [|fuel IH]; intros bs Hlen.
  - destruct bs; [reflexivity|cbn in Hlen; lia].
  - destruct bs as [|b bs]; [reflexivity|].
    cbn [SHA256.blocks concat]. rewrite IH.
    + apply firstn_skipn.
    + rewrite length_skipn. cbn [length] in *. lia.
Qed.

(** The padded message fills whole blocks. *)
Lemma pad_length (msg : list Z) : (length (SHA256.pad msg) mod 64 = 0)%nat.
Proof.
  unfold SHA256.pad. cbv zeta.
  rewrite !length_app, repeat_length. cbn [length SHA256.bytes_of_word].
  pose proof (Z.mod_pos_bound (55 - Z.of_nat (length msg)) 64 ltac:(lia)) as Hk.
  apply Nat2Z.inj. rewrite Nat2Z.inj_mod.
  rewrite !Nat2Z.inj_add, Z2Nat.id by lia. cbn [Z.of_nat Pos.of_succ_nat Pos.succ].
  Z.div_mod_to_equations. lia.
Qed.

(** ** The chain, for any number of parameters *)

Lemma chain_fold (params : list string) (k : StringOrWords) (kb : list Z) :
  hmacKey k = Reference.blockKey kb ->
  hmacKey (fold_left (fun signature p => Words (HmacSHA256 p signature)) params k)
  = Reference.blockKey
      (fold_left (fun k p => Reference.hmac_sha256 k (bytes_of_string p)) params kb).
Proof.
  revert k kb. induction params as [|p params IH]; intros k kb Hk; [exact Hk|].
  cbn [fold_left]. apply IH.
  unfold HmacSHA256. rewrite Hk. reflexivity.
Qed.

Lemma HmacSHA256_blockKey (message : string) (k : StringOrWords) (kb : list Z) :
  hmacKey k = Reference.blockKey kb ->
  HmacSHA256 message k = Reference.hmac_sha256 kb (bytes_of_string message).
Proof. intros Hk. unfold HmacSHA256. rewrite Hk. reflexivity. Qed.

(** X1. For any number of parameters, none included, [getSignatureKey]
    is the hexadecimal form of the HMAC of ["iw1_request"] under the
    chaining key, and every further parameter extends the chaining key
    by one HMAC under the key reached so far. *)
Theorem getSignatureKey_chain (s : string) (params : list string) :
  getSignatureKey s params
  = toString (Reference.hmac_sha256 (chainKey s params)
                                    (bytes_of_string "iw1_request"))
  /\ chainKey s [] = bytes_of_string ("IW1" +:+ s)
  /\ forall p : string,
       chainKey s (params ++ [p])
       = Reference.hmac_sha256 (chainKey s params) (bytes_of_string p).
Proof.
  split; [|split].
  - unfold getSignatureKey, chainKey. f_equal.
    apply HmacSHA256_blockKey, chain_fold. reflexivity.
  - reflexivity.
  - intros p. unfold chainKey. now rewrite fold_left_app.
Qed.

(** ** The nonce and the random bytes *)

Lemma map_seq_from (f : nat -> Z) (d n k : nat) :
  map f (seq (d + k) n) = map (fun i => f (d + i)%nat) (seq k n).
Proof.
  revert k. induction n as [|n IH]; intros k; [reflexivity|].
  cbn [seq map]. f_equal. rewrite <- IH. now rewrite Nat.add_succ_r.
Qed.

Lemma nonceBytesOf_nextBytes (w : World) :
  nonceBytesOf w = map (nextByte w) (seq 0 16).
Proof.
  unfold nonceBytesOf, randomBytes. rewrite getDateTime_world. cbn [fst].
  rewrite <- (Nat.add_0_r (drawn w)) at 1. apply map_seq_from.
Qed.

Lemma hexDigit_mod (n : Z) : hexDigit (n mod 16) = hexDigit n.
Proof. unfold hexDigit. now rewrite Z.mod_mod by lia. Qed.

Lemma nonceOf_digits (w : World) :
  nonceOf w
  = nonceDigits (nextByte w 0) (nextByte w 1) (nextByte w 2)
                (nextByte w 3) (nextByte w 4) (nextByte w 5).
Proof.
  unfold nonceOf. rewrite nonceBytesOf_nextBytes.
  cbn [seq map]. unfold bufferToHex, JS.slice, nonceDigits.
  cbn -[hexDigit Z.div nextByte]. reflexivity.
Qed.

Lemma hexDigit_inj (a b : Z) : hexDigit a = hexDigit b -> a mod 16 = b mod 16.
Proof.
  unfold hexDigit. intros H.
  pose proof (Z.mod_pos_bound a 16 ltac:(lia)) as Ha.
  pose proof (Z.mod_pos_bound b 16 ltac:(lia)) as Hb.
  apply (f_equal N_of_ascii) in H.
  destruct (a mod 16 <? 10) eqn:Ea; destruct (b mod 16 <? 10) eqn:Eb;
    rewrite ?Z.ltb_lt, ?Z.ltb_ge in *;
    rewrite !N_ascii_embedding in H by lia; lia.
Qed.

(** X7. The nonce is made of 44 random bits: the low half of the first
    byte drawn and the five bytes after it.  Two worlds that agree on
    those give the same nonce; the high half of the first byte and the
    ten last bytes are drawn and dropped. *)
Theorem nonce_reads_44_bits (w w' : World) :
  nextByte w 0 mod 16 = nextByte w' 0 mod 16 ->
  (forall i : nat, (1 <= i <= 5)%nat -> nextByte w i = nextByte w' i) ->
  nonceOf w = nonceOf w'.
Proof.
  intros H0 H. rewrite !nonceOf_digits. unfold nonceDigits.
  rewrite <- (hexDigit_mod (nextByte w 0)), H0, hexDigit_mod.
  now rewrite (H 1%nat), (H 2%nat), (H 3%nat), (H 4%nat), (H 5%nat) by lia.
Qed.

Lemma nonce_reads_44_bits_witness :
  nonceOf (worldAt 0 [Byte.x0d; Byte.xea; Byte.xdb; Byte.xee; Byte.xf1; Byte.x23;
                      Byte.x45; Byte.x67])
  = nonceOf (worldAt 7 [Byte.xfd; Byte.xea; Byte.xdb; Byte.xee; Byte.xf1; Byte.x23;
                        Byte.x99]).
Proof.
  apply nonce_reads_44_bits.
  - vm_compute. reflexivity.
  - intros i Hi.
    assert (Hc : i = 1%nat \/ i = 2%nat \/ i = 3%nat \/ i = 4%nat \/ i = 5%nat) by lia.
    destruct Hc as [->|[->|[->|[->| ->]]]]; vm_compute; reflexivity.
Defined.

(** X8. Each of the 44 bits counts: two worlds with the same nonce agree
    on the low half of the first byte and on each half of the five bytes
    after it. *)
Theorem nonce_determines_44_bits (w w' : World) :
  nonceOf w = nonceOf w' ->
  nextByte w 0 mod 16 = nextByte w' 0 mod 16
  /\ forall i : nat, (1 <= i <= 5)%nat ->
       nextByte w i mod 16 = nextByte w' i mod 16
       /\ (nextByte w i / 16) mod 16 = (nextByte w' i / 16) mod 16.
Proof.
  rewrite !nonceOf_digits. unfold nonceDigits. intros H.
  injection H as E0 E1h E1 E2h E2 E3h E3 E4h E4 E5h E5.
  apply hexDigit_inj in E0, E1h, E1, E2h, E2, E3h, E3, E4h, E4, E5h, E5.
  split; [assumption|].
  intros i Hi.
  assert (Hc : i = 1%nat \/ i = 2%nat \/ i = 3%nat \/ i = 4%nat \/ i = 5%nat) by lia.
  destruct Hc as [->|[->|[->|[->| ->]]]]; split; assumption.
Qed.

Lemma nonce_determines_44_bits_witness :
  let w := worldAt 0 [Byte.x0d; Byte.xea; Byte.xdb; Byte.xee; Byte.xf1; Byte.x23;
                      Byte.x45; Byte.x67] in
  let w' := worldAt 7 [Byte.xfd; Byte.xea; Byte.xdb; Byte.xee; Byte.xf1; Byte.x23;
                       Byte.x99] in
  nextByte w 0 mod 16 = nextByte w' 0 mod 16.
Proof.
  intros w w'.
  assert (H : nonceOf w = nonceOf w') by (vm_compute; reflexivity).
  destruct (nonce_determines_44_bits w w' H) as [H0 _]. exact H0.
Defined.

Lemma getAuthorization_world (args : AuthorizationArgs) (w : World) :
  snd (getAuthorization args w) = afterDraw 16 w.
Proof.
  cbv beta iota zeta delta [getAuthorization bind ret randomBytes].
  rewrite (surjective_pairing (getDateTime w)), getDateTime_world.
  reflexivity.
Qed.

Lemma nextByte_afterDraw (n i : nat) (w : World) :
  nextByte (afterDraw n w) i = nextByte w (n + i).
Proof. unfold nextByte, afterDraw. cbn [entropy drawn]. now rewrite Nat.add_assoc. Qed.

(** X9. A call reads the clock, consumes exactly 16 random bytes and
    touches nothing else; the next call makes its nonce from the bytes
    that follow, so two successive calls never share a random byte. *)
Theorem getAuthorization_draws_sixteen_bytes
    (args args' : AuthorizationArgs) (w : World) :
  let w' := snd (getAuthorization args w) in
  now w' = now w /\ env w' = env w /\ drawn w' = (drawn w + 16)%nat
  /\ nonceBytesOf w = map (nextByte w) (seq 0 16)
  /\ nonceBytesOf w' = map (nextByte w) (seq 16 16)
  /\ snd (getAuthorization args' w') = afterDraw 32 w.
Proof.
  cbv zeta. rewrite !getAuthorization_world.
  split; [reflexivity|]. split; [reflexivity|]. split; [reflexivity|].
  split; [apply nonceBytesOf_nextBytes|]. split.
  - rewrite nonceBytesOf_nextBytes.
    change (seq 16 16) with (seq (16 + 0) 16). rewrite map_seq_from.
    apply map_ext. intros i. apply nextByte_afterDraw.
  - unfold afterDraw. cbn [now timezoneOffset entropy drawn env].
    now rewrite <- Nat.add_assoc.
Qed.

Section Lengths.

#[local] Arguments String.append !_ _ / : simpl nomatch.

Lemma length_append (a b : string) :
  String.length (a +:+ b) = (String.length a + String.length b)%nat.
Proof. induction a as [|c a IH]; cbn; [reflexivity|]. now rewrite IH. Qed.

End Lengths.

Lemma headerOf_length (k t n sig : string) :
  String.length (headerOf k t n sig)
  = (51 + String.length k + String.length t + String.length n
     + String.length sig)%nat.
Proof. unfold headerOf. rewrite !length_append. cbn [String.length]. lia. Qed.

Lemma getSignatureKey_length (s : string) (params : list string) :
  String.length (getSignatureKey s params) = 64%nat.
Proof.
  unfold getSignatureKey. now rewrite toString_length, HmacSHA256_length.
Qed.

Lemma nonceOf_length (w : World) : String.length (nonceOf w) = 11%nat.
Proof.
  unfold nonceOf, bufferToHex.
  now destruct (nonce_of_sixteen_bytes _ (nonceBytesOf_length w)) as (_ & Hn & _).
Qed.

Lemma timestampOf_length (w : World) :
  -62167219200000 <= now w <= 253402300799999 ->
  String.length (timestampOf w) = 14%nat.
Proof.
  intros Ht. unfold timestampOf. rewrite (getDateTime_value w Ht). cbn [fst].
  now destruct (utcFields_digits (now w)).
Qed.

(** X10. In the years 0000 to 9999 the header is always 140 characters
    longer than the key. *)
Theorem header_length (args : AuthorizationArgs) (w : World) :
  -62167219200000 <= now w <= 253402300799999 ->
  String.length (fst (getAuthorization args w))
  = (String.length (key (apiKey args)) + 140)%nat.
Proof.
  intros Ht. rewrite getAuthorization_value, headerOf_length.
  rewrite getSignatureKey_length, nonceOf_length, (timestampOf_length w Ht). lia.
Qed.

Lemma header_length_witness :
  String.length
    (fst (getAuthorization
            {| host := "api.inworld.ai";
               apiKey := {| key := "abc"; secret := "testsecret" |};
               engineHost := "api-engine.inworld.ai" |}
            (worldAt 1735689600000 [])))
  = 143%nat.
Proof.
  apply (header_length
           {| host := "api.inworld.ai";
              apiKey := {| key := "abc"; secret := "testsecret" |};
              engineHost := "api-engine.inworld.ai" |}
           (worldAt 1735689600000 [])).
  cbn [now worldAt]. lia.
Defined.

(** X11. An engine host in which [":443"] does not occur is signed as it
    is, whatever port it names. *)
Theorem host_without_443_is_signed_unchanged (args : AuthorizationArgs) (w : World) :
  occursIn ":443" (engineHost args) = false ->
  fst (getAuthorization args w)
  = headerOf (key (apiKey args)) (timestampOf w) (nonceOf w)
      (getSignatureKey (secret (apiKey args))
         [ timestampOf w; engineHost args;
           "ai.inworld.engine.WorldEngine/GenerateToken"; nonceOf w ]).
Proof.
  intros H. rewrite getAuthorization_value, (replace_absent _ _ _ H). reflexivity.
Qed.

Lemma host_without_443_is_signed_unchanged_witness :
  fst (getAuthorization
         {| host := "api.inworld.ai";
            apiKey := {| key := "abc"; secret := "testsecret" |};
            engineHost := "example.com:8443" |} (worldAt 0 []))
  = headerOf "abc" (timestampOf (worldAt 0 [])) (nonceOf (worldAt 0 []))
      (getSignatureKey "testsecret"
         [ timestampOf (worldAt 0 []); "example.com:8443";
           "ai.inworld.engine.WorldEngine/GenerateToken"; nonceOf (worldAt 0 []) ]).
Proof.
  apply (host_without_443_is_signed_unchanged
           {| host := "api.inworld.ai";
              apiKey := {| key := "abc"; secret := "testsecret" |};
              engineHost := "example.com:8443" |} (worldAt 0 [])).
  reflexivity.
Defined.

(** X12. Of an engine host [a ++ ":443" ++ b] where [":443"] does not
    occur in [a], the part [a ++ b] is signed: the leftmost [":443"]
    goes, what follows it stays. *)
Theorem leftmost_443_is_removed (h : string) (k : ApiKey) (a b : string) (w : World) :
  occursIn ":443" a = false ->
  fst (getAuthorization
         {| host := h; apiKey := k; engineHost := a +:+ ":443" +:+ b |} w)
  = headerOf (key k) (timestampOf w) (nonceOf w)
      (getSignatureKey (secret k)
         [ timestampOf w; a +:+ b;
           "ai.inworld.engine.WorldEngine/GenerateToken"; nonceOf w ]).
Proof.
  intros H. rewrite getAuthorization_value. cbn [engineHost apiKey].
  rewrite (replace_first_443 a b H). reflexivity.
Qed.

Lemma leftmost_443_is_removed_witness :
  fst (getAuthorization
         {| host := "api.inworld.ai";
            apiKey := {| key := "abc"; secret := "testsecret" |};
            engineHost := "example.com" +:+ ":443" +:+ "/v1:443" |} (worldAt 0 []))
  = headerOf "abc" (timestampOf (worldAt 0 [])) (nonceOf (worldAt 0 []))
      (getSignatureKey "testsecret"
         [ timestampOf (worldAt 0 []); "example.com" +:+ "/v1:443";
           "ai.inworld.engine.WorldEngine/GenerateToken"; nonceOf (worldAt 0 []) ]).
Proof.
  apply (leftmost_443_is_removed "api.inworld.ai"
           {| key := "abc"; secret := "testsecret" |}
           "example.com" "/v1:443" (worldAt 0 [])).
  reflexivity.
Defined.

Section AnyYear.

#[local] Arguments String.append !_ _ / : simpl nomatch.

Import Date.

Lemma append_assoc (a b c : string) : ((a +:+ b) +:+ c = a +:+ (b +:+ c))%string.
Proof. induction a as [|x a IH]; cbn; [reflexivity|]. now rewrite IH. Qed.

Lemma lacks_append (c : ascii) (a b : string) :
  lacks c (a +:+ b) = lacks c a && lacks c b.
Proof.
  unfold lacks. induction a as [|x a IH]; cbn; [reflexivity|].
  now rewrite IH, andb_assoc.
Qed.

Lemma replaceAll_append (a b : string) (c : ascii) (r : string) :
  JS.replaceAll (a +:+ b) c r = (JS.replaceAll a c r +:+ JS.replaceAll b c r)%string.
Proof.
  induction a as [|x a IH]; cbn [JS.replaceAll String.append]; [reflexivity|].
  rewrite IH. destruct (Ascii.eqb x c); [|reflexivity].
  now rewrite append_assoc.
Qed.

Lemma replaceAll_lacks (s : string) (c : ascii) (r : string) :
  lacks c s = true -> JS.replaceAll s c r = s.
Proof.
  unfold lacks. induction s as [|x s IH]; cbn [allChars JS.replaceAll]; [reflexivity|].
  intros [Hx Hs]%andb_prop. apply negb_true_iff in Hx. now rewrite Hx, (IH Hs).
Qed.

Lemma fixedOnto_digits (width : nat) (n : Z) (acc : string) :
  allChars isDigit acc = true -> allChars isDigit (fixedOnto width n acc) = true.
Proof.
  revert n acc. induction width as [|width IH]; intros n acc Hacc; [exact Hacc|].
  cbn [fixedOnto]. apply IH. cbn [allChars]. now rewrite isDigit_digit.
Qed.

Lemma fixed_digits (width : nat) (n : Z) : allChars isDigit (fixed width n) = true.
Proof. now apply fixedOnto_digits. Qed.

Lemma fixedOnto_length (width : nat) (n : Z) (acc : string) :
  String.length (fixedOnto width n acc) = (width + String.length acc)%nat.
Proof.
  revert n acc. induction width as [|width IH]; intros n acc; [reflexivity|].
  cbn [fixedOnto]. rewrite IH. cbn [String.length]. lia.
Qed.

Lemma fixed_length (width : nat) (n : Z) : String.length (fixed width n) = width.
Proof. unfold fixed. rewrite fixedOnto_length. cbn. lia. Qed.

Lemma digits_lack (c : ascii) (s : string) :
  isDigit c = false -> allChars isDigit s = true -> lacks c s = true.
Proof.
  intros Hc. unfold lacks. induction s as [|x s IH]; cbn [allChars]; [reflexivity|].
  intros [Hx Hs]%andb_prop. rewrite (IH Hs), andb_true_r.
  apply negb_true_iff, Ascii.eqb_neq. intros ->. congruence.
Qed.

Lemma fixed_lacks (c : ascii) (width : nat) (n : Z) :
  isDigit c = false -> lacks c (fixed width n) = true.
Proof. intros Hc. apply digits_lack; [exact Hc|apply fixed_digits]. Qed.

Lemma yearString_lacks_T (y : Z) : lacks "T" (yearString y) = true.
Proof.
  unfold yearString.
  destruct ((0 <=? y) && (y <=? 9999)); [now apply fixed_lacks|].
  rewrite lacks_append, fixed_lacks by reflexivity.
  destruct (y <? 0); reflexivity.
Qed.

Lemma yearString_digits (y : Z) :
  JS.replaceAll (yearString y) "-" "" = yearDigits y.
Proof.
  unfold yearString, yearDigits.
  destruct ((0 <=? y) && (y <=? 9999)).
  - apply replaceAll_lacks. now apply fixed_lacks.
  - rewrite replaceAll_append, (replaceAll_lacks (fixed 6 _)) by now apply fixed_lacks.
    destruct (y <? 0); reflexivity.
Qed.

Lemma toISOString_parts (t : Z) :
  toISOString t = (isoDatePart t +:+ String "T" (isoTimePart t))%string.
Proof.
  unfold toISOString, isoDatePart, isoTimePart.
  now rewrite !append_assoc.
Qed.

Lemma isoDatePart_lacks_T (t : Z) : lacks "T" (isoDatePart t) = true.
Proof.
  unfold isoDatePart.
  now rewrite !lacks_append, yearString_lacks_T, !fixed_lacks.
Qed.

Lemma isoTimePart_lacks_T (t : Z) : lacks "T" (isoTimePart t) = true.
Proof.
  unfold isoTimePart. now rewrite !lacks_append, !fixed_lacks.
Qed.

Lemma isoDatePart_digits (t : Z) :
  JS.replaceAll (isoDatePart t) "-" ""
  = (yearDigits (YearFromTime t) +:+ fixed 2 (MonthFromTime t + 1)
       +:+ fixed 2 (DateFromTime t))%string.
Proof.
  unfold isoDatePart.
  rewrite !replaceAll_append, yearString_digits.
  rewrite !(replaceAll_lacks (fixed 2 _)) by now apply fixed_lacks.
  reflexivity.
Qed.

Lemma isoTimePart_digits (t : Z) :
  JS.substring (JS.replaceAll (isoTimePart t) ":" "") 0 6
  = (fixed 2 (HourFromTime t) +:+ fixed 2 (MinFromTime t)
       +:+ fixed 2 (SecFromTime t))%string.
Proof.
  pose proof (time_digits (HourFromTime t / 10) (HourFromTime t)
    (MinFromTime t / 10) (MinFromTime t) (SecFromTime t / 10) (SecFromTime t)
    (msFromTime t / 10 / 10) (msFromTime t / 10) (msFromTime t)) as E.
  exact E.
Qed.

(** The timestamp of any instant. *)
Lemma getDateTime_any (w : World) :
  getDateTime w
  = (yearDigits (YearFromTime (now w)) +:+ fixed 2 (MonthFromTime (now w) + 1)
       +:+ fixed 2 (DateFromTime (now w)) +:+ fixed 2 (HourFromTime (now w))
       +:+ fixed 2 (MinFromTime (now w)) +:+ fixed 2 (SecFromTime (now w)), w)%string.
Proof.
  unfold getDateTime, bind, newDate, ret.
  rewrite toISOString_parts, split_at_separator by apply isoDatePart_lacks_T.
  rewrite split_without_separator by apply isoTimePart_lacks_T.
  unfold nthPart. cbn [nth].
  rewrite isoDatePart_digits, isoTimePart_digits.
  now rewrite !append_assoc.
Qed.

End AnyYear.

Section Seconds.

#[local] Arguments String.append !_ _ / : simpl nomatch.

Import Date.

Lemma fields_of_second (t t' : Z) :
  t / 1000 = t' / 1000 ->
  Day t = Day t' /\ HourFromTime t = HourFromTime t'
  /\ MinFromTime t = MinFromTime t' /\ SecFromTime t = SecFromTime t'.
Proof.
  intros H. unfold Day, msPerDay, HourFromTime, MinFromTime, SecFromTime.
  assert (E : forall x, x / 86400000 = x / 1000 / 86400
                        /\ x / 3600000 = x / 1000 / 3600
                        /\ x / 60000 = x / 1000 / 60)
    by (intros x; Z.div_mod_to_equations; lia).
  destruct (E t) as (-> & -> & ->). destruct (E t') as (-> & -> & ->).
  now rewrite H.
Qed.

Lemma calendar_of_day (t t' : Z) :
  Day t = Day t' ->
  YearFromTime t = YearFromTime t' /\ MonthFromTime t = MonthFromTime t'
  /\ DateFromTime t = DateFromTime t'.
Proof.
  intros H.
  assert (Hy : YearFromTime t = YearFromTime t') by (unfold YearFromTime; now rewrite H).
  assert (Hl : InLeapYear t = InLeapYear t') by (unfold InLeapYear; now rewrite Hy).
  assert (Hd : DayWithinYear t = DayWithinYear t')
    by (unfold DayWithinYear; now rewrite H, Hy).
  assert (Hm : MonthFromTime t = MonthFromTime t')
    by (unfold MonthFromTime; now rewrite Hd, Hl).
  split; [exact Hy|]. split; [exact Hm|].
  unfold DateFromTime. now rewrite Hd, Hl, Hm.
Qed.

(** X2. The timestamp drops the milliseconds: two calls within the same
    second get the same timestamp, at any instant. *)
Theorem same_second_same_timestamp (w w' : World) :
  now w / 1000 = now w' / 1000 -> timestampOf w = timestampOf w'.
Proof.
  intros H. unfold timestampOf. rewrite !getDateTime_any. cbn [fst].
  destruct (fields_of_second _ _ H) as (Hd & -> & -> & ->).
  now destruct (calendar_of_day _ _ Hd) as (-> & -> & ->).
Qed.

Lemma same_second_same_timestamp_witness :
  timestampOf (worldAt 1735689600000 []) = timestampOf (worldAt 1735689600999 []).
Proof.
  apply (same_second_same_timestamp (worldAt 1735689600000 [])
           (worldAt 1735689600999 [])).
  reflexivity.
Defined.

Lemma YearFromTime_after_9999 (t : Z) :
  253402300799999 < t -> 9999 < YearFromTime t.
Proof.
  intros Ht. pose proof (YearFromTime_spec t) as [_ Hhi].
  assert (Hd : 2932897 <= Day t)
    by (unfold Day, msPerDay; Z.div_mod_to_equations; lia).
  destruct (Z_lt_le_dec 9999 (YearFromTime t)) as [|Hsmall]; [assumption|].
  pose proof (DayFromYear_mono (YearFromTime t + 1) 10000 ltac:(lia)) as Hm.
  change (DayFromYear 10000) with 2932897 in Hm. lia.
Qed.

Lemma YearFromTime_before_0 (t : Z) :
  t < -62167219200000 -> YearFromTime t < 0.
Proof.
  intros Ht. pose proof (YearFromTime_spec t) as [Hlo _].
  assert (Hd : Day t < -719528)
    by (unfold Day, msPerDay; Z.div_mod_to_equations; lia).
  destruct (Z_lt_le_dec (YearFromTime t) 0) as [|Hbig]; [assumption|].
  pose proof (DayFromYear_mono 0 (YearFromTime t) ltac:(lia)) as Hm.
  change (DayFromYear 0) with (-719528) in Hm. lia.
Qed.

Lemma timestamp_tail_length (t : Z) (y : string) :
  String.length
    (y +:+ fixed 2 (MonthFromTime t + 1) +:+ fixed 2 (DateFromTime t)
       +:+ fixed 2 (HourFromTime t) +:+ fixed 2 (MinFromTime t)
       +:+ fixed 2 (SecFromTime t))
  = (String.length y + 10)%nat.
Proof. rewrite !length_append, !fixed_length. lia. Qed.

(** X5. After the year 9999 (and up to the last time value of a Date)
    the timestamp has 17 characters and begins with a plus sign: the
    sign and the six digits [toISOString] gives such a year, then
    MMDDHHMMSS. *)
Theorem timestamp_after_9999 (w : World) :
  253402300799999 < now w <= 8640000000000000 ->
  String.length (timestampOf w) = 17%nat
  /\ exists rest : string,
       timestampOf w = ("+" +:+ fixed 6 (YearFromTime (now w)) +:+ rest)%string
       /\ allChars isDigit rest = true.
Proof.
  intros [Hlo _]. pose proof (YearFromTime_after_9999 _ Hlo) as Hy.
  unfold timestampOf. rewrite getDateTime_any. cbn [fst].
  rewrite timestamp_tail_length.
  unfold yearDigits.
  destruct (Z.leb_spec (YearFromTime (now w)) 9999); [lia|].
  rewrite andb_false_r. destruct (Z.ltb_spec (YearFromTime (now w)) 0); [lia|].
  rewrite Z.abs_eq by lia. split.
  - rewrite length_append, fixed_length. reflexivity.
  - eexists. rewrite !append_assoc. split; [reflexivity|].
    unfold fixed. cbn -[digit]. now rewrite !isDigit_digit.
Qed.

Lemma timestamp_after_9999_witness :
  String.length (timestampOf (worldAt 253402300800000 [])) = 17%nat.
Proof.
  destruct (timestamp_after_9999 (worldAt 253402300800000 [])) as [H _].
  - cbn [now worldAt]. lia.
  - exact H.
Defined.

(** X6. Before the year 0000 the timestamp has 16 characters, all
    numeric: [replace(/-/g, '')] takes the minus sign of the year away
    with the separators, and six digits of the year remain. *)
Theorem timestamp_before_0000 (w : World) :
  -8640000000000000 <= now w < -62167219200000 ->
  String.length (timestampOf w) = 16%nat
  /\ allChars isDigit (timestampOf w) = true
  /\ exists rest : string,
       timestampOf w = (fixed 6 (- YearFromTime (now w)) +:+ rest)%string.
Proof.
  intros [_ Hhi]. pose proof (YearFromTime_before_0 _ Hhi) as Hy.
  unfold timestampOf. rewrite getDateTime_any. cbn [fst].
  rewrite timestamp_tail_length.
  unfold yearDigits.
  destruct (Z.leb_spec 0 (YearFromTime (now w))); [lia|].
  rewrite andb_false_l. destruct (Z.ltb_spec (YearFromTime (now w)) 0); [|lia].
  rewrite Z.abs_neq by lia. split; [|split].
  - now rewrite fixed_length.
  - unfold fixed. cbn -[digit]. now rewrite !isDigit_digit.
  - eexists. reflexivity.
Qed.

Lemma timestamp_before_0000_witness :
  String.length (timestampOf (worldAt (-62167219200001) [])) = 16%nat.
Proof.
  destruct (timestamp_before_0000 (worldAt (-62167219200001) [])) as [H _].
  - cbn [now worldAt]. lia.
  - exact H.
Defined.

End Seconds.

Section ReadBack.

#[local] Arguments String.append !_ _ / : simpl nomatch.

Import Date.

Lemma digitValue_digit (n : Z) : digitValue (digit n) = n mod 10.
Proof.
  unfold digitValue, byte_of_ascii, digit.
  pose proof (Z.mod_pos_bound n 10 ltac:(lia)).
  rewrite N_ascii_embedding by lia. lia.
Qed.

(** The six numbers written in YYYYMMDDHHMMSS. *)
Lemma numbers_of_fields (Y Mo D h m s : Z) :
  let ts := (fixed 4 Y +:+ fixed 2 Mo +:+ fixed 2 D +:+ fixed 2 h
               +:+ fixed 2 m +:+ fixed 2 s)%string in
  numberAt ts 0 4 = Y mod 10000 /\ numberAt ts 4 2 = Mo mod 100
  /\ numberAt ts 6 2 = D mod 100 /\ numberAt ts 8 2 = h mod 100
  /\ numberAt ts 10 2 = m mod 100 /\ numberAt ts 12 2 = s mod 100.
Proof.
  cbv zeta. unfold fixed, numberAt. cbn -[digit digitValue Z.mul Z.add].
  rewrite !digitValue_digit.
  repeat split; Z.div_mod_to_equations; lia.
Qed.

Lemma day_of_year (t : Z) :
  daysBeforeMonth (InLeapYear t) (MonthFromTime t + 1) + DateFromTime t - 1
  = DayWithinYear t.
Proof.
  pose proof (InLeapYear_range t).
  unfold DateFromTime, MonthFromTime. cbv zeta.
  generalize dependent (InLeapYear t). generalize (DayWithinYear t).
  intros d l Hl.
  repeat match goal with
         | |- context [if ?a <? ?b then _ else _] => destruct (Z.ltb_spec a b)
         end;
    match goal with
    | |- context [daysBeforeMonth l (?k + 1)] =>
        let v := eval compute in (k + 1) in change (k + 1) with v
    end; cbv beta iota delta [daysBeforeMonth]; lia.
Qed.

Lemma second_of_fields (t : Z) :
  secondOfFields (YearFromTime t) (MonthFromTime t + 1) (DateFromTime t)
                 (HourFromTime t) (MinFromTime t) (SecFromTime t)
  = t / 1000.
Proof.
  unfold secondOfFields.
  change (leapOf (YearFromTime t)) with (InLeapYear t).
  replace (DayFromYear (YearFromTime t)
           + daysBeforeMonth (InLeapYear t) (MonthFromTime t + 1)
           + DateFromTime t - 1)
    with (Day t)
    by (pose proof (day_of_year t); unfold DayWithinYear in *; lia).
  unfold Day, msPerDay, HourFromTime, MinFromTime, SecFromTime.
  Z.div_mod_to_equations. lia.
Qed.

Lemma time_of_day_range (t : Z) :
  0 <= HourFromTime t <= 23 /\ 0 <= MinFromTime t <= 59 /\ 0 <= SecFromTime t <= 59.
Proof.
  unfold HourFromTime, MinFromTime, SecFromTime.
  repeat split; Z.div_mod_to_equations; lia.
Qed.

Lemma numbers_of_timestamp (w : World) :
  -62167219200000 <= now w <= 253402300799999 ->
  numberAt (timestampOf w) 0 4 = YearFromTime (now w)
  /\ numberAt (timestampOf w) 4 2 = MonthFromTime (now w) + 1
  /\ numberAt (timestampOf w) 6 2 = DateFromTime (now w)
  /\ numberAt (timestampOf w) 8 2 = HourFromTime (now w)
  /\ numberAt (timestampOf w) 10 2 = MinFromTime (now w)
  /\ numberAt (timestampOf w) 12 2 = SecFromTime (now w).
Proof.
  intros Ht. unfold timestampOf. rewrite (getDateTime_value w Ht). cbn [fst].
  pose proof (YearFromTime_four_digits _ Ht).
  pose proof (MonthFromTime_range (now w)).
  pose proof (DateFromTime_range (now w)).
  pose proof (time_of_day_range (now w)) as (? & ? & ?).
  destruct (numbers_of_fields (YearFromTime (now w)) (MonthFromTime (now w) + 1)
    (DateFromTime (now w)) (HourFromTime (now w)) (MinFromTime (now w))
    (SecFromTime (now w))) as (E1 & E2 & E3 & E4 & E5 & E6).
  unfold utcFields. rewrite E1, E2, E3, E4, E5, E6.
  rewrite !Z.mod_small by lia. repeat split.
Qed.

(** X3. In the years 0000 to 9999 the timestamp reads back as a date
    and a time of day that exist: a month from 01 to 12, a day from 01
    to 31, an hour up to 23, minutes and seconds up to 59. *)
Theorem timestamp_names_a_real_date (w : World) :
  -62167219200000 <= now w <= 253402300799999 ->
  0 <= numberAt (timestampOf w) 0 4 <= 9999
  /\ 1 <= numberAt (timestampOf w) 4 2 <= 12
  /\ 1 <= numberAt (timestampOf w) 6 2 <= 31
  /\ 0 <= numberAt (timestampOf w) 8 2 <= 23
  /\ 0 <= numberAt (timestampOf w) 10 2 <= 59
  /\ 0 <= numberAt (timestampOf w) 12 2 <= 59.
Proof.
  intros Ht.
  destruct (numbers_of_timestamp w Ht) as (-> & -> & -> & -> & -> & ->).
  pose proof (YearFromTime_four_digits _ Ht).
  pose proof (MonthFromTime_range (now w)).
  pose proof (DateFromTime_range (now w)).
  pose proof (time_of_day_range (now w)) as (? & ? & ?).
  repeat split; lia.
Qed.

Lemma timestamp_names_a_real_date_witness :
  1 <= numberAt (timestampOf (worldAt 1747363826123 [])) 4 2 <= 12.
Proof.
  destruct (timestamp_names_a_real_date (worldAt 1747363826123 []))
    as (_ & H & _).
  - cbn [now worldAt]. lia.
  - exact H.
Defined.

(** X4. In the years 0000 to 9999 the timestamp names its second: read
    back as a UTC date and time it gives the clock, in whole seconds
    since the epoch.  Two instants with the same timestamp lie in the
    same second. *)
Theorem timestamp_names_its_second (w : World) :
  -62167219200000 <= now w <= 253402300799999 ->
  secondOfTimestamp (timestampOf w) = now w / 1000.
Proof.
  intros Ht. unfold secondOfTimestamp.
  destruct (numbers_of_timestamp w Ht) as (-> & -> & -> & -> & -> & ->).
  apply second_of_fields.
Qed.

Lemma timestamp_names_its_second_witness :
  secondOfTimestamp (timestampOf (worldAt 1747363826123 [])) = 1747363826123 / 1000.
Proof.
  apply (timestamp_names_its_second (worldAt 1747363826123 [])).
  cbn [now worldAt]. lia.
Defined.

End ReadBack.

(** ** The environment *)

Lemma timestampOf_unsetEnv (name : string) (w : World) :
  timestampOf (unsetEnv name w) = timestampOf w.
Proof. reflexivity. Qed.

Lemma nonceOf_unsetEnv (name : string) (w : World) :
  nonceOf (unsetEnv name w) = nonceOf w.
Proof. reflexivity. Qed.

Lemma generateAuthHeader_env (w : World) : env (snd (generateAuthHeader w)) = env w.
Proof.
  rewrite generateAuthHeader_value.
  cbv beta iota zeta delta [getAuthorization bind ret randomBytes].
  rewrite (surjective_pairing (getDateTime w)), getDateTime_world.
  reflexivity.
Qed.

Lemma lookup_unsetEnv_ne (name name' : string) (w : World) :
  name <> name' -> env (unsetEnv name w) !! name' = env w !! name'.
Proof. intros Hne. unfold unsetEnv. cbn [env]. now apply lookup_delete_ne. Qed.

(** The header, from the three variables it is made of. *)
Lemma generateAuthHeader_header (w : World) :
  fst (generateAuthHeader w)
  = headerOf (JS.orElse (env w !! "INWORLD_KEY") "") (timestampOf w) (nonceOf w)
      (getSignatureKey (JS.orElse (env w !! "INWORLD_SECRET") "")
         [ timestampOf w;
           JS.replace (JS.orElse (env w !! "INWORLD_ENGINE_HOST")
                                 "api-engine.inworld.ai") ":443" "";
           "ai.inworld.engine.WorldEngine/GenerateToken"; nonceOf w ]).
Proof.
  rewrite generateAuthHeader_value.
  set (args := Build_AuthorizationArgs _ _ _).
  rewrite (getAuthorization_value args w). reflexivity.
Qed.

Lemma orElse_empty_or_unset (name name' fallback : string) (w : World) :
  JS.orElse (env (setEnv name "" w) !! name') fallback
  = JS.orElse (env (unsetEnv name w) !! name') fallback.
Proof.
  unfold setEnv, unsetEnv. cbn [env].
  destruct (decide (name = name')) as [->|Hne].
  - now rewrite lookup_insert_eq, lookup_delete_eq.
  - now rewrite lookup_insert_ne, lookup_delete_ne.
Qed.

Lemma getJwtToken_request (w : World) :
  fst (getJwtToken w)
  = {| url := "https://" +:+ JS.orElse (env w !! "INWORLD_HOST") "api.inworld.ai"
                +:+ "/auth/v1/tokens/token:generate";
       bodyKey := JS.orElse (env w !! "INWORLD_KEY") "";
       bodyResources :=
         [JS.orElse (env w !! "INWORLD_WORKSPACE") "workspaces/default-workspace"];
       headerAuthorization := fst (generateAuthHeader w);
       headerContentType := "application/json" |}.
Proof. rewrite getJwtToken_value, generateAuthHeader_env. reflexivity. Qed.

(** X13. A variable set to the empty string counts as a variable that is
    not set: the whole request is the same in both worlds. *)
Theorem empty_variable_is_unset (name : string) (w : World) :
  fst (getJwtToken (setEnv name "" w)) = fst (getJwtToken (unsetEnv name w))
  /\ fst (generateAuthHeader (setEnv name "" w))
     = fst (generateAuthHeader (unsetEnv name w)).
Proof.
  assert (H : fst (generateAuthHeader (setEnv name "" w))
              = fst (generateAuthHeader (unsetEnv name w))).
  { rewrite (generateAuthHeader_header (setEnv name "" w)).
    rewrite (generateAuthHeader_header (unsetEnv name w)).
    rewrite !orElse_empty_or_unset.
    now rewrite timestampOf_setEnv, nonceOf_setEnv,
      timestampOf_unsetEnv, nonceOf_unsetEnv. }
  split; [|exact H].
  rewrite (getJwtToken_request (setEnv name "" w)).
  rewrite (getJwtToken_request (unsetEnv name w)).
  now rewrite !orElse_empty_or_unset, H.
Qed.

(** X14. The header is made of [INWORLD_KEY], [INWORLD_SECRET] and
    [INWORLD_ENGINE_HOST] only: setting any other variable leaves it as
    it was. *)
Theorem header_reads_three_variables (name value : string) (w : World) :
  name <> "INWORLD_KEY"%string -> name <> "INWORLD_SECRET"%string ->
  name <> "INWORLD_ENGINE_HOST"%string ->
  fst (generateAuthHeader (setEnv name value w)) = fst (generateAuthHeader w).
Proof.
  intros Hk Hs He.
  rewrite (generateAuthHeader_header (setEnv name value w)).
  rewrite (generateAuthHeader_header w).
  rewrite !(lookup_setEnv_ne name) by assumption.
  now rewrite timestampOf_setEnv, nonceOf_setEnv.
Qed.

Lemma header_reads_three_variables_witness :
  fst (generateAuthHeader (setEnv "INWORLD_WORKSPACE" "workspaces/w1" (worldAt 0 [])))
  = fst (generateAuthHeader (worldAt 0 [])).
Proof.
  apply (header_reads_three_variables "INWORLD_WORKSPACE" "workspaces/w1" (worldAt 0 []));
    discriminate.
Defined.

(** X15. Spelling out the default port on the default engine host changes
    nothing: the header is the one of an unset [INWORLD_ENGINE_HOST]. *)
Theorem default_engine_host_with_port (w : World) :
  fst (generateAuthHeader
         (setEnv "INWORLD_ENGINE_HOST" "api-engine.inworld.ai:443" w))
  = fst (generateAuthHeader (unsetEnv "INWORLD_ENGINE_HOST" w)).
Proof.
  rewrite (generateAuthHeader_header
             (setEnv "INWORLD_ENGINE_HOST" "api-engine.inworld.ai:443" w)).
  rewrite (generateAuthHeader_header (unsetEnv "INWORLD_ENGINE_HOST" w)).
  rewrite timestampOf_setEnv, nonceOf_setEnv,
    timestampOf_unsetEnv, nonceOf_unsetEnv.
  rewrite !(lookup_setEnv_ne "INWORLD_ENGINE_HOST") by discriminate.
  rewrite !(lookup_unsetEnv_ne "INWORLD_ENGINE_HOST") by discriminate.
  unfold setEnv, unsetEnv. cbn [env].
  rewrite lookup_insert_eq, lookup_delete_eq. cbn [JS.orElse].
  assert (E : JS.replace "api-engine.inworld.ai:443" ":443" ""
              = JS.replace "api-engine.inworld.ai" ":443" "")
    by (vm_compute; reflexivity).
  now rewrite E.
Qed.

Lemma orElse_nonempty (o : option string) (fallback : string) :
  fallback <> EmptyString -> JS.orElse o fallback <> EmptyString.
Proof. intros Hf. destruct o as [[|c s]|]; cbn; [assumption|discriminate|assumption]. Qed.

(** X16. The request names in its body the key of its authorization
    header, carries exactly one resource, never an empty one, and never
    goes to an empty host. *)
Theorem request_is_consistent (w : World) :
  let r := fst (getJwtToken w) in
  (exists sig : string,
     isLowerHex64 sig = true
     /\ headerAuthorization r = headerOf (bodyKey r) (timestampOf w) (nonceOf w) sig)
  /\ (exists resource : string,
        bodyResources r = [resource] /\ resource <> EmptyString)
  /\ (exists h : string,
        url r = ("https://" +:+ h +:+ "/auth/v1/tokens/token:generate")%string
        /\ h <> EmptyString).
Proof.
  cbv zeta. rewrite getJwtToken_request.
  cbn [headerAuthorization bodyKey bodyResources url].
  split; [|split].
  - eexists. split; [|apply generateAuthHeader_header].
    apply getSignatureKey_format.
  - eexists. split; [reflexivity|]. now apply orElse_nonempty.
  - eexists. split; [reflexivity|]. now apply orElse_nonempty.
Qed.

(** ** The call to the service and [main] *)

Lemma getJwtToken_world (w : World) : snd (getJwtToken w) = afterDraw 16 w.
Proof.
  cbv beta iota zeta delta
    [getJwtToken generateAuthHeader getAuthorization bind getenv ret randomBytes].
  rewrite (surjective_pairing (getDateTime w)), getDateTime_world.
  reflexivity.
Qed.


Section RunProperties.

Variable Data : Type.
Variable truthy : Data -> bool.
Variable post : Request -> Run.Thrown Data + JwtTokenResponse.

Abbreviation getJwtTokenRun := (Run.getJwtToken Data truthy post).
Abbreviation mainRun := (Run.main Data truthy post).

Lemma getJwtTokenRun_value (p : Run.Process Data) :
  getJwtTokenRun p
  = match post (Run.requestOf p) with
    | inr response =>
        (inr response,
         {| Run.world := Run.worldAfter p; Run.console := Run.console p |})
    | inl error =>
        (inl error,
         {| Run.world := Run.worldAfter p;
            Run.console :=
              Run.console p ++
                [ {| Run.stream := Run.Err;
                     Run.args :=
                       match error with
                       | Run.AxiosError d m =>
                           [Run.Text "API Error:"; Run.dataOrMessage Data truthy d m]
                       | Run.OtherError _ =>
                           [Run.Text "Error:"; Run.Caught error]
                       end |} ] |})
    end.
Proof.
  unfold Run.requestOf, Run.worldAfter.
  cbv beta iota zeta delta
    [Run.getJwtToken Run.andThen Run.tryCatch Run.lift Run.await Run.pure
     Run.throw Run.consoleError Run.write].
  destruct (Run.request (Run.world p)) as [r w]. cbn [fst snd Run.world Run.console].
  destruct (post r) as [[d m|e]|response]; reflexivity.
Qed.

Lemma added_app (p : Run.Process Data) (w : World) (es : list (Run.Entry Data)) :
  Run.added p {| Run.world := w; Run.console := Run.console p ++ es |} = es.
Proof.
  unfold Run.added. cbn [Run.console].
  now rewrite skipn_app, skipn_all, Nat.sub_diag.
Qed.

(** X17. [getJwtToken] returns the data of the response as it came and
    writes nothing; when the call is rejected it writes exactly one line
    to the error stream and throws the very error it caught. *)
Theorem getJwtToken_rethrows_what_it_caught (p : Run.Process Data) :
  match post (Run.requestOf p) with
  | inr response =>
      fst (getJwtTokenRun p) = inr response
      /\ Run.console (snd (getJwtTokenRun p)) = Run.console p
  | inl error =>
      fst (getJwtTokenRun p) = inl error
      /\ exists line : list (Run.LogArg Data),
           Run.added p (snd (getJwtTokenRun p))
           = [ {| Run.stream := Run.Err; Run.args := line |} ]
  end.
Proof.
  rewrite getJwtTokenRun_value.
  destruct (post (Run.requestOf p)) as [error|response]; cbn [fst snd Run.console].
  - split; [reflexivity|]. eexists. apply added_app.
  - split; reflexivity.
Qed.

Lemma mainRun_value (p : Run.Process Data) :
  mainRun p
  = match getJwtTokenRun p with
    | (inr jwtToken, p') =>
        (inr tt,
         {| Run.world := Run.world p';
            Run.console := Run.console p' ++ Run.successLines jwtToken |})
    | (inl error, p') =>
        (inr tt,
         {| Run.world := Run.world p';
            Run.console :=
              Run.console p' ++
                [ {| Run.stream := Run.Err;
                     Run.args := [Run.Text "Error in main:"; Run.Caught error] |} ] |})
    end.
Proof.
  cbv beta iota zeta delta
    [Run.main Run.andThen Run.tryCatch Run.consoleLog Run.consoleError Run.write].
  destruct (getJwtTokenRun p) as [[error|jwtToken] p']; [reflexivity|].
  cbn [Run.world Run.console]. unfold Run.successLines.
  now rewrite <- !app_assoc.
Qed.

(** X18. [main] never throws: whatever the service answers, it ends
    normally, having consumed 16 random bytes. *)
Theorem main_never_throws (p : Run.Process Data) :
  fst (mainRun p) = inr tt
  /\ Run.world (snd (mainRun p)) = afterDraw 16 (Run.world p).
Proof.
  rewrite mainRun_value, getJwtTokenRun_value.
  unfold Run.worldAfter, Run.request. rewrite getJwtToken_world.
  destruct (post (Run.requestOf p)); split; reflexivity.
Qed.

(** X19. What [main] prints: five lines on the output stream for a
    token, and nothing on the error stream; for a rejected call two
    lines on the error stream, the second one naming the error, and
    nothing on the output stream. *)
Theorem main_prints (p : Run.Process Data) :
  match post (Run.requestOf p) with
  | inr jwtToken => Run.added p (snd (mainRun p)) = Run.successLines jwtToken
  | inl error =>
      exists line : list (Run.LogArg Data),
        Run.added p (snd (mainRun p))
        = [ {| Run.stream := Run.Err; Run.args := line |};
            {| Run.stream := Run.Err;
               Run.args := [Run.Text "Error in main:"; Run.Caught error] |} ]
  end.
Proof.
  rewrite mainRun_value, getJwtTokenRun_value.
  destruct (post (Run.requestOf p)) as [error|jwtToken]; cbn [snd Run.console Run.world].
  - eexists. rewrite <- app_assoc. apply added_app.
  - apply added_app.
Qed.


End RunProperties.


(** * The signer on JavaScript strings *)

Section WellFormed.

Import Utf16.

Lemma encode_decided_upto (n : nat) (s : JSString) :
  (length s <= n)%nat ->
  if isWellFormed s then exists bs, encode s = inr bs
  else encode s = inl URIError.
Proof.
  revert s. induction n as [|n IH]; intros s Hlen.
  - destruct s; [cbn; eauto|cbn in Hlen; lia].
  - destruct s as [|c rest]; [cbn; eauto|].
    cbn [isWellFormed encode]. cbn [length] in Hlen.
    destruct (isHigh c).
    + destruct rest as [|d rest']; [reflexivity|].
      cbn [length] in Hlen.
      destruct (isLow d); cbn [andb]; [|reflexivity].
      specialize (IH rest' ltac:(lia)).
      destruct (isWellFormed rest').
      * destruct IH as [bs ->]. eauto.
      * now rewrite IH.
    + destruct (isLow c); cbn [negb andb]; [reflexivity|].
      specialize (IH rest ltac:(lia)).
      destruct (isWellFormed rest).
      * destruct IH as [bs ->]. eauto.
      * now rewrite IH.
Qed.

(** [Utf8.parse] returns exactly on the well-formed strings. *)
Lemma parse_decided (s : JSString) :
  parse s = if isWellFormed s then inr (utf8 s) else inl URIError.
Proof.
  pose proof (encode_decided_upto (length s) s (le_n _)) as H.
  unfold utf8, parse. destruct (isWellFormed s).
  - destruct H as [bs ->]. reflexivity.
  - now rewrite H.
Qed.

Lemma isWellFormed_IW1 (key : JSString) :
  isWellFormed (ofAscii "IW1" ++ key) = isWellFormed key.
Proof. reflexivity. Qed.

Lemma utf8_IW1 (key : JSString) :
  isWellFormed key = true -> utf8 (ofAscii "IW1" ++ key) = ("IW1" +:+ utf8 key)%string.
Proof.
  intros Hk. pose proof (parse_decided key) as H. rewrite Hk in H.
  unfold utf8 at 1. unfold parse in *.
  change (ofAscii "IW1" ++ key) with (73 :: 87 :: 49 :: key).
  cbn [encode]. change (isHigh 73) with false. change (isHigh 87) with false.
  change (isHigh 49) with false. change (isLow 73) with false.
  change (isLow 87) with false. change (isLow 49) with false. cbv iota.
  destruct (encode key) as [e|bs]; [discriminate|].
  injection H as <-. reflexivity.
Qed.

Lemma utf8_ofAscii_request : parse (ofAscii "iw1_request") = inr "iw1_request"%string.
Proof. reflexivity. Qed.

Lemma forEach_decided (params : list JSString) (k : Throwing.Key) (k' : StringOrWords) :
  Throwing.parseKey k = inr k' ->
  match Throwing.forEach params k with
  | inr r =>
      forallb isWellFormed params = true
      /\ Throwing.parseKey r
         = inr (fold_left (fun signature p => Words (HmacSHA256 p signature))
                          (map utf8 params) k')
  | inl _ => forallb isWellFormed params = false
  end.
Proof.
  revert k k'. induction params as [|p rest IH]; intros k k' Hk.
  - cbn. split; [reflexivity|exact Hk].
  - cbn [Throwing.forEach forallb map fold_left]. unfold Throwing.HmacSHA256.
    rewrite Hk, parse_decided.
    destruct (isWellFormed p); cbn [andb]; [|reflexivity].
    apply (IH (Throwing.WordsJS _) (Words _)). reflexivity.
Qed.

Lemma forEach_bad_key (params : list JSString) (k : Throwing.Key) (e : JSError) :
  Throwing.parseKey k = inl e ->
  match Throwing.forEach params k with
  | inr r => Throwing.parseKey r = inl e
  | inl _ => True
  end.
Proof.
  intros Hk. destruct params as [|p rest]; [exact Hk|].
  cbn [Throwing.forEach]. unfold Throwing.HmacSHA256. now rewrite Hk.
Qed.

(** What [getSignatureKey] does with any JavaScript strings: on
    well-formed ones it is the function on texts, otherwise it throws. *)
Lemma Throwing_getSignatureKey_value (key : JSString) (params : list JSString) :
  Throwing.getSignatureKey key params
  = if isWellFormed key && forallb isWellFormed params
    then inr (getSignatureKey (utf8 key) (map utf8 params))
    else inl URIError.
Proof.
  unfold Throwing.getSignatureKey.
  pose proof (parse_decided (ofAscii "IW1" ++ key)) as Hp.
  rewrite isWellFormed_IW1 in Hp.
  destruct (isWellFormed key) eqn:Hk; cbn [andb].
  - rewrite (utf8_IW1 key Hk) in Hp.
    pose proof (forEach_decided params (Throwing.StrJS (ofAscii "IW1" ++ key))
                  (Str ("IW1" +:+ utf8 key))) as H.
    cbn [Throwing.parseKey] in H. rewrite Hp in H. specialize (H eq_refl).
    destruct (Throwing.forEach params _) as [[]|r].
    + now rewrite H.
    + destruct H as [-> Hr]. unfold Throwing.HmacSHA256.
      rewrite Hr, utf8_ofAscii_request. reflexivity.
  - pose proof (forEach_bad_key params (Throwing.StrJS (ofAscii "IW1" ++ key))
                  URIError) as H.
    cbn [Throwing.parseKey] in H. rewrite Hp in H. specialize (H eq_refl).
    destruct (Throwing.forEach params _) as [[]|r]; [reflexivity|].
    unfold Throwing.HmacSHA256. now rewrite H.
Qed.

End WellFormed.

(** C8 fails on a string that is not well formed: with a lone high
    surrogate as the host, [crypto-js] throws [URIError] and no
    signature comes back. *)
Lemma getSignatureKey_throws_on_lone_surrogate :
  Throwing.getSignatureKey (Utf16.ofAscii "testsecret")
    [ Utf16.ofAscii "20200101000000"; [0xD800];
      Utf16.ofAscii "ai.inworld.engine.WorldEngine/GenerateToken";
      Utf16.ofAscii "abc123" ]
  = inl Utf16.URIError.
Proof. vm_compute. reflexivity. Qed.

(** C8, as the code has it.  [getSignatureKey] returns exactly when the
    secret and every parameter are well-formed strings, and throws
    [URIError] otherwise.  On well-formed strings, empty ones included,
    it takes no error branch and returns 64 lowercase hexadecimal
    characters; an empty parameter only changes the value, as on the
    known vector. *)
Theorem getSignatureKey_total_on_well_formed
    (key : Utf16.JSString) (params : list Utf16.JSString) :
  Throwing.getSignatureKey key params
  = (if Utf16.isWellFormed key && forallb Utf16.isWellFormed params
     then inr (getSignatureKey (Utf16.utf8 key) (map Utf16.utf8 params))
     else inl Utf16.URIError)
  /\ isLowerHex64 (getSignatureKey (Utf16.utf8 key) (map Utf16.utf8 params)) = true
  /\ Utf16.isWellFormed [] = true
  /\ Throwing.getSignatureKey (Utf16.ofAscii "testsecret")
       [ Utf16.ofAscii "20200101000000"; [];
         Utf16.ofAscii "ai.inworld.engine.WorldEngine/GenerateToken";
         Utf16.ofAscii "abc123" ]
     = inr "81fcf6f5d6dc18408a8610d63ae69f71301d9ecd6e5119521eb08df415e1e3fa"%string
  /\ Throwing.getSignatureKey (Utf16.ofAscii "testsecret")
       [ Utf16.ofAscii "20200101000000"; [];
         Utf16.ofAscii "ai.inworld.engine.WorldEngine/GenerateToken";
         Utf16.ofAscii "abc123" ]
     <> Throwing.getSignatureKey (Utf16.ofAscii "testsecret")
          [ Utf16.ofAscii "20200101000000"; Utf16.ofAscii "api.inworld.ai";
            Utf16.ofAscii "ai.inworld.engine.WorldEngine/GenerateToken";
            Utf16.ofAscii "abc123" ].
Proof.
  split; [apply Throwing_getSignatureKey_value|].
  split; [apply getSignatureKey_format|].
  split; [reflexivity|].
  split; [vm_compute; reflexivity|].
  vm_compute. discriminate.
Qed.

(** C4, as the code has it.  With an empty secret the signer raises no
    error of its own.  On well-formed parameters [getSignatureKey] runs
    the chain from the key ["IW1"] alone and returns 64 lowercase
    hexadecimal characters; [getAuthorization] returns the header that
    carries exactly that signature, made over the timestamp, the host
    without its leftmost [":443"], the method and the nonce; and
    [generateAuthHeader] signs with the empty secret whenever
    [INWORLD_SECRET] is missing or empty. *)
Theorem empty_secret_is_signed :
  (forall params : list Utf16.JSString,
     forallb Utf16.isWellFormed params = true ->
     Throwing.getSignatureKey [] params
     = inr (getSignatureKey "" (map Utf16.utf8 params))
     /\ isLowerHex64 (getSignatureKey "" (map Utf16.utf8 params)) = true)
  /\ (forall p1 p2 p3 p4 : string,
        getSignatureKey "" [p1; p2; p3; p4] = Reference.signature "" p1 p2 p3 p4)
  /\ (forall (h k e : string) (w : World),
        fst (getAuthorization
               {| host := h; apiKey := {| key := k; secret := "" |};
                  engineHost := e |} w)
        = headerOf k (timestampOf w) (nonceOf w)
            (getSignatureKey ""
               [ timestampOf w; JS.replace e ":443" "";
                 "ai.inworld.engine.WorldEngine/GenerateToken"; nonceOf w ]))
  /\ (forall w : World,
        env w !! "INWORLD_SECRET" = None
        \/ env w !! "INWORLD_SECRET" = Some EmptyString ->
        fst (generateAuthHeader w)
        = headerOf (JS.orElse (env w !! "INWORLD_KEY") "")
            (timestampOf w) (nonceOf w)
            (getSignatureKey ""
               [ timestampOf w;
                 JS.replace (JS.orElse (env w !! "INWORLD_ENGINE_HOST")
                                       "api-engine.inworld.ai") ":443" "";
                 "ai.inworld.engine.WorldEngine/GenerateToken"; nonceOf w ])).
Proof.
  split.
  { intros params Hp. rewrite Throwing_getSignatureKey_value, Hp.
    split; [reflexivity|apply getSignatureKey_format]. }
  split.
  { intros. unfold getSignatureKey, Reference.signature. cbn [fold_left].
    now rewrite HmacSHA256_Str, !HmacSHA256_Words. }
  split.
  - intros h k e w. rewrite getAuthorization_value. reflexivity.
  - intros w Hs. rewrite generateAuthHeader_header.
    destruct Hs as [-> | ->]; reflexivity.
Qed.

Lemma empty_secret_is_signed_witness :
  let w := setEnv "INWORLD_SECRET" "" (setEnv "INWORLD_KEY" "abc" (worldAt 0 [])) in
  let params := [ Utf16.ofAscii "20200101000000"; Utf16.ofAscii "api.inworld.ai";
                  Utf16.ofAscii "ai.inworld.engine.WorldEngine/GenerateToken";
                  Utf16.ofAscii "abc123" ] in
  Throwing.getSignatureKey [] params
  = inr (getSignatureKey "" (map Utf16.utf8 params))
  /\ fst (generateAuthHeader w)
     = headerOf (JS.orElse (env w !! "INWORLD_KEY") "")
         (timestampOf w) (nonceOf w)
         (getSignatureKey ""
            [ timestampOf w;
              JS.replace (JS.orElse (env w !! "INWORLD_ENGINE_HOST")
                                    "api-engine.inworld.ai") ":443" "";
              "ai.inworld.engine.WorldEngine/GenerateToken"; nonceOf w ]).
Proof.
  intros w params.
  destruct empty_secret_is_signed as (H1 & _ & _ & H4). split.
  - apply (H1 params). vm_compute. reflexivity.
  - apply (H4 w). right. unfold w, setEnv. cbn [env]. apply lookup_insert_eq.
Defined.
